(** * Overlay mount operations and package installation helpers

    A shallow embedding of [craft_parts/overlays/overlay_manager.py]:
    the [OverlayManager] class and the two scoped sessions [LayerMount]
    and [PackageCacheMount].

    Python objects are records, the instance attributes keep their
    names.  Methods are state transformers that either return a value
    or raise; state changes made before a [raise] persist, as they do in
    Python. *)

From stdpp Require Import gmap strings list fin_maps.

(** ** Paths *)

(** A [pathlib.Path] is the list of its components; [p / "x"] appends
    a component. *)
Abbreviation Path := (list string).

Definition joinpath (p : Path) (c : string) : Path := p ++ [c].
Infix "/:" := joinpath (at level 40, left associativity).

(** ** Exceptions and outcomes *)

Inductive Exn :=
| RuntimeError (msg : string)
| ValueError (msg : string)
| IndexError
| FileNotFoundError
| FileExistsError
| IsADirectoryError
| SystemExit
| ExternalError (tag : string).

#[global] Instance Exn_eq_dec : EqDecision Exn.
Proof. solve_decision. Defined.

Inductive Outcome (A : Type) :=
| Return (a : A)
| Raise (e : Exn).
Arguments Return {A} a.
Arguments Raise {A} e.

(** ** The data handled by the manager *)

(** [ProjectInfo]: the three overlay directories the manager reads. *)
Record ProjectInfo := {
  overlay_mount_dir : Path;
  overlay_packages_dir : Path;
  overlay_work_dir : Path
}.

(** [Part] is declared in [craft_parts.parts]; the manager uses its
    [part_layer_dir] property and compares parts with [==] (inside
    [list.index]).  Equality of the records stands for that [==]. *)
Record Part := {
  part_name : string;
  part_layer_dir : Path
}.

#[global] Instance Part_eq_dec : EqDecision Part.
Proof. solve_decision. Defined.

(** Modelled from the spec: the union-mount primitive [OverlayFS] of
    [overlay_fs.py], which is not part of this module.  A stack object is
    built from an ordered list of lower directories, one upper directory
    and one work directory, and keeps the path it is mounted on, which is
    all it needs to be unmounted. *)
Record OverlayFS := {
  lower_dirs : list Path;
  upper_dir : Path;
  work_dir : Path;
  mountpoint : option Path
}.

#[global] Instance OverlayFS_eq_dec : EqDecision OverlayFS.
Proof. solve_decision. Defined.

Definition OverlayFS__init__ (lowers : list Path) (upper work : Path) : OverlayFS :=
  {| lower_dirs := lowers; upper_dir := upper; work_dir := work;
     mountpoint := None |}.

(** ** The world outside the manager *)

(** What a directory entry is.  [Whiteout] is the mark a union mount
    leaves in its upper directory when an entry of a lower directory is
    removed through the merged view. *)
Inductive Node :=
| Regular (content : string)
| Symlink (target : string)
| Directory
| Whiteout.

#[global] Instance Node_eq_dec : EqDecision Node.
Proof. solve_decision. Defined.

(** An entry of the mount table: a stack mounted on a mount point. *)
Record Mount := {
  mnt_point : Path;
  mnt_lower : list Path;
  mnt_upper : Path;
  mnt_work : Path
}.

(** Calls received by the union-mount primitive. *)
Inductive Event :=
| EvMount (lowers : list Path) (upper work : Path) (target : Path)
| EvUnmount (fs : OverlayFS).

(** The world: the files as they lie in the real directories (layer
    directories included), the mount table with the latest mount first,
    the identity of the running process ([os.getpid()]) and the calls the
    union-mount primitive has received, latest first. *)
Record World := {
  files : gmap Path Node;
  mtab : list Mount;
  pid : nat;
  trace : list Event
}.

Definition set_files (f : gmap Path Node) (w : World) : World :=
  {| files := f; mtab := mtab w; pid := pid w; trace := trace w |}.

Definition set_mtab (t : list Mount) (w : World) : World :=
  {| files := files w; mtab := t; pid := pid w; trace := trace w |}.

Definition log_event (ev : Event) (w : World) : World :=
  {| files := files w; mtab := mtab w; pid := pid w; trace := ev :: trace w |}.

(** The collaborators of the manager whose code is elsewhere: when the
    union-mount primitive fails, what the isolation primitive
    ([pychroot.Chroot]) does on entry and on exit, what the operations of
    [packages.Repository] do, and [shutil.rmtree(..., ignore_errors=True)].
    Every result below holds for all of them. *)
Record Collaborators := {
  mount_fault : OverlayFS -> Path -> World -> option Exn;
  unmount_fault : OverlayFS -> World -> option Exn;
  chroot_enter : Path -> World -> Outcome unit * World;
  chroot_exit : Path -> option Exn -> World -> Outcome bool * World;
  repo_refresh_packages_list : World -> Outcome unit * World;
  repo_download_packages : list string -> World -> Outcome unit * World;
  repo_install_packages : list string -> World -> Outcome unit * World;
  rmtree_ignore_errors : Path -> World -> World
}.

(** ** The manager object and the program state *)

Record OverlayManager := {
  _project_info : ProjectInfo;
  _part_list : list Part;
  _layer_dirs : list Path;
  _overlay_fs : option OverlayFS;
  _base_layer_dir : option Path
}.

Definition set_overlay_fs (o : option OverlayFS) (self : OverlayManager) : OverlayManager :=
  {| _project_info := _project_info self;
     _part_list := _part_list self;
     _layer_dirs := _layer_dirs self;
     _overlay_fs := o;
     _base_layer_dir := _base_layer_dir self |}.

Record State := {
  om : OverlayManager;
  env : World
}.

Definition set_om (m : OverlayManager) (s : State) : State :=
  {| om := m; env := env s |}.

Definition set_env (w : World) (s : State) : State :=
  {| om := om s; env := w |}.

(** ** A state and exception monad *)

Definition M (A : Type) : Type := State -> Outcome A * State.

Definition ret {A} (a : A) : M A := fun s => (Return a, s).

Definition raise {A} (e : Exn) : M A := fun s => (Raise e, s).

Definition bind {A B} (c : M A) (k : A -> M B) : M B :=
  fun s =>
    match c s with
    | (Return a, s1) => k a s1
    | (Raise e, s1) => (Raise e, s1)
    end.

Notation "x <~ c ; k" := (bind c (fun x => k))
  (at level 20, c at level 100, k at level 200, only parsing).
Notation "c ;~ k" := (bind c (fun _ => k))
  (at level 100, k at level 200, right associativity, only parsing).

(** A [for] loop over a list. *)
Fixpoint for_each {A} (l : list A) (body : A -> M unit) : M unit :=
  match l with
  | [] => ret tt
  | x :: l' => body x ;~ for_each l' body
  end.

(** Run an action of the outside world inside the program state. *)
Definition lift_world {A} (f : World -> Outcome A * World) : M A :=
  fun s => let (r, w) := f (env s) in (r, set_env w s).

Definition get_self : M OverlayManager := fun s => (Return (om s), s).

Definition put_overlay_fs (o : option OverlayFS) : M unit :=
  fun s => (Return tt, set_om (set_overlay_fs o (om s)) s).

(** The [with] statement: [cm_enter] is [__enter__], [cm_exit] is
    [__exit__] applied to the exception in flight, if any.  When
    [__enter__] raises the body and [__exit__] do not run; an exception of
    the body is raised again unless [__exit__] returns true; an exception
    raised by [__exit__] replaces it. *)
Definition with_stmt {A} (cm_enter : M A) (cm_exit : option Exn -> M bool)
    (body : A -> M unit) : M unit :=
  fun s =>
    match cm_enter s with
    | (Raise e, s1) => (Raise e, s1)
    | (Return a, s1) =>
      match body a s1 with
      | (Return _, s2) =>
        match cm_exit None s2 with
        | (Return _, s3) => (Return tt, s3)
        | (Raise e', s3) => (Raise e', s3)
        end
      | (Raise e, s2) =>
        match cm_exit (Some e) s2 with
        | (Return true, s3) => (Return tt, s3)
        | (Return false, s3) => (Raise e, s3)
        | (Raise e', s3) => (Raise e', s3)
        end
      end
    end.

(** [contextlib.suppress(SystemExit)]. *)
Definition suppress_SystemExit__exit__ (exc : option Exn) : M bool :=
  ret (match exc with Some SystemExit => true | _ => false end).

Definition suppress_SystemExit (body : M unit) : M unit :=
  with_stmt (ret tt) suppress_SystemExit__exit__ (fun _ => body).

(** [list.index]: the position of the first element equal to [x]. *)
Fixpoint list_index {A} `{EqDecision A} (x : A) (l : list A) : option nat :=
  match l with
  | [] => None
  | y :: l' => if decide (y = x) then Some 0 else S <$> list_index x l'
  end.

(** ** The file system seen through the mount table *)

(** [strip_prefix pre p] is the rest of [p] below the directory [pre]. *)
Fixpoint strip_prefix (pre p : Path) : option Path :=
  match pre, p with
  | [], _ => Some p
  | c :: pre', d :: p' => if decide (c = d) then strip_prefix pre' p' else None
  | _ :: _, [] => None
  end.

(** The mount that covers a path, the latest one first, and the path
    relative to its mount point. *)
Fixpoint find_mount (t : list Mount) (p : Path) : option (Mount * Path) :=
  match t with
  | [] => None
  | m :: t' =>
    match strip_prefix (mnt_point m) p with
    | Some rel => Some (m, rel)
    | None => find_mount t' p
    end
  end.

(** The entry of the first layer that has one, the layers being listed
    from the topmost one down. *)
Fixpoint layer_lookup (f : gmap Path Node) (layers : list Path) (rel : Path)
  : option Node :=
  match layers with
  | [] => None
  | d :: ds =>
    match f !! (d ++ rel) with
    | Some n => Some n
    | None => layer_lookup f ds rel
    end
  end.

Definition visible (o : option Node) : option Node :=
  match o with
  | Some Whiteout => None
  | _ => o
  end.

(** What is at a path ([os.lstat], links not followed): under a mount
    point the merged view of the stack, the upper directory above the
    lower ones; elsewhere the directory entry itself. *)
Definition lstat (w : World) (p : Path) : option Node :=
  match find_mount (mtab w) p with
  | Some (m, rel) => visible (layer_lookup (files w) (mnt_upper m :: mnt_lower m) rel)
  | None => files w !! p
  end.

(** Removing an entry.  Under a mount point the upper directory is the
    only writable layer: its entry goes, and a whiteout hides the one a
    lower directory still has. *)
Definition fs_remove (w : World) (p : Path) : World :=
  match find_mount (mtab w) p with
  | Some (m, rel) =>
    let f := delete (mnt_upper m ++ rel) (files w) in
    match visible (layer_lookup f (mnt_lower m) rel) with
    | Some _ => set_files (<[mnt_upper m ++ rel := Whiteout]> f) w
    | None => set_files f w
    end
  | None => set_files (delete p (files w)) w
  end.

(** Creating an entry; under a mount point it lands in the upper
    directory. *)
Definition fs_create (w : World) (p : Path) (n : Node) : World :=
  match find_mount (mtab w) p with
  | Some (m, rel) => set_files (<[mnt_upper m ++ rel := n]> (files w)) w
  | None => set_files (<[p := n]> (files w)) w
  end.

(** *** [pathlib] and [os] *)

Definition os_getpid : M nat := fun s => (Return (pid (env s)), s).

Definition sys_exit {A} : M A := raise SystemExit.

Definition Path_is_symlink (p : Path) : M bool :=
  fun s =>
    (Return (match lstat (env s) p with Some (Symlink _) => true | _ => false end), s).

Definition Path_unlink (p : Path) : M unit :=
  fun s =>
    match lstat (env s) p with
    | None => (Raise FileNotFoundError, s)
    | Some Directory => (Raise IsADirectoryError, s)
    | Some _ => (Return tt, set_env (fs_remove (env s) p) s)
    end.

(** [touch()] creates an empty regular file; on an existing entry it
    only updates the times, which are not part of the model. *)
Definition Path_touch (p : Path) : M unit :=
  fun s =>
    match lstat (env s) p with
    | Some _ => (Return tt, s)
    | None => (Return tt, set_env (fs_create (env s) p (Regular "")) s)
    end.

(** The non-empty prefixes of a path, the shortest first. *)
Fixpoint ancestors_from (pre : Path) (p : Path) : list Path :=
  match p with
  | [] => []
  | c :: p' => (pre ++ [c]) :: ancestors_from (pre ++ [c]) p'
  end.

Definition mkdir_one (q : Path) : M unit :=
  fun s =>
    match lstat (env s) q with
    | Some Directory => (Return tt, s)
    | Some _ => (Raise FileExistsError, s)
    | None => (Return tt, set_env (fs_create (env s) q Directory) s)
    end.

Fixpoint mkdir_each (qs : list Path) : M unit :=
  match qs with
  | [] => ret tt
  | q :: qs' => mkdir_one q ;~ mkdir_each qs'
  end.

(** [mkdir(parents=True, exist_ok=True)]: the missing ancestors and the
    directory are created, an existing directory is not an error, an
    entry of another kind in the way is one. *)
Definition Path_mkdir_parents_exist_ok (p : Path) : M unit :=
  mkdir_each (ancestors_from [] p).

(** ** The union-mount primitive *)

Definition clear_mountpoint (fs : OverlayFS) : OverlayFS :=
  {| lower_dirs := lower_dirs fs; upper_dir := upper_dir fs;
     work_dir := work_dir fs; mountpoint := None |}.

Definition set_mountpoint (target : Path) (fs : OverlayFS) : OverlayFS :=
  {| lower_dirs := lower_dirs fs; upper_dir := upper_dir fs;
     work_dir := work_dir fs; mountpoint := Some target |}.

Definition mount_of (fs : OverlayFS) (target : Path) : Mount :=
  {| mnt_point := target; mnt_lower := lower_dirs fs;
     mnt_upper := upper_dir fs; mnt_work := work_dir fs |}.

(** The latest mount on [target] leaves the table. *)
Fixpoint drop_mount (target : Path) (t : list Mount) : list Mount :=
  match t with
  | [] => []
  | m :: t' => if decide (mnt_point m = target) then t' else m :: drop_mount target t'
  end.

Section Primitive.

Variable ext : Collaborators.

(** Modelled from the spec: [OverlayFS.mount(mountpoint)] mounts the
    merged view of (lower directories, upper directory, work directory)
    at a mount point, atomically; when it fails it raises and nothing is
    mounted. *)
Definition OverlayFS_mount (fs : OverlayFS) (target : Path) (w : World)
  : Outcome OverlayFS * World :=
  let w1 := log_event (EvMount (lower_dirs fs) (upper_dir fs) (work_dir fs) target) w in
  match mount_fault ext fs target w with
  | Some e => (Raise e, w1)
  | None => (Return (set_mountpoint target fs),
             set_mtab (mount_of fs target :: mtab w1) w1)
  end.

(** Modelled from the spec: [OverlayFS.unmount()] tears down the merged
    view at the mount point of the stack; when it fails it raises and the
    mount stays. *)
Definition OverlayFS_unmount (fs : OverlayFS) (w : World)
  : Outcome OverlayFS * World :=
  let w1 := log_event (EvUnmount fs) w in
  match unmount_fault ext fs w with
  | Some e => (Raise e, w1)
  | None =>
    match mountpoint fs with
    | Some target => (Return (clear_mountpoint fs),
                      set_mtab (drop_mount target (mtab w1)) w1)
    | None => (Return fs, w1)
    end
  end.

End Primitive.

(** ** [class OverlayManager] *)

Definition OverlayManager__init__ (project_info : ProjectInfo)
    (part_list : list Part) (base_layer_dir : option Path) : OverlayManager :=
  {| _project_info := project_info;
     _part_list := part_list;
     _layer_dirs := map part_layer_dir part_list;
     _overlay_fs := None;
     _base_layer_dir := base_layer_dir |}.

Section Manager.

Variable ext : Collaborators.

(** [self._overlay_fs.mount(target)]: the object held by the manager is
    the one the primitive updates. *)
Definition overlay_fs_mount (fs : OverlayFS) (target : Path) : M unit :=
  fs' <~ lift_world (OverlayFS_mount ext fs target) ;
  put_overlay_fs (Some fs').

Definition mount_layer (part : Part) (pkg_cache : bool) : M unit :=
  self <~ get_self ;
  match _base_layer_dir self with
  | None => raise (RuntimeError "request to mount overlay without a base layer")
  | Some base =>
    let lowers := [base] in
    let lowers :=
      if pkg_cache
      then lowers ++ [overlay_packages_dir (_project_info self)]
      else lowers in
    match list_index part (_part_list self) with
    | None => raise (ValueError "part is not in list")
    | Some index =>
      let lowers := lowers ++ take index (_layer_dirs self) in
      match _layer_dirs self !! index with
      | None => raise IndexError
      | Some upper =>
        (* lower dirs are stacked from right to left *)
        let lowers := reverse lowers in
        let fs := OverlayFS__init__ lowers upper
                    (overlay_work_dir (_project_info self)) in
        put_overlay_fs (Some fs) ;~
        overlay_fs_mount fs (overlay_mount_dir (_project_info self))
      end
    end
  end.

Definition mount_pkg_cache : M unit :=
  self <~ get_self ;
  match _base_layer_dir self with
  | None =>
    raise (RuntimeError
             "request to mount the overlay package cache without a base layer")
  | Some base =>
    let fs := OverlayFS__init__ [base]
                (overlay_packages_dir (_project_info self))
                (overlay_work_dir (_project_info self)) in
    put_overlay_fs (Some fs) ;~
    overlay_fs_mount fs (overlay_mount_dir (_project_info self))
  end.

Definition unmount : M unit :=
  self <~ get_self ;
  match _overlay_fs self with
  | None => raise (RuntimeError "filesystem is not mounted")
  | Some fs =>
    lift_world (OverlayFS_unmount ext fs) ;~
    put_overlay_fs None
  end.

Definition mkdirs : M unit :=
  self <~ get_self ;
  for_each
    [ overlay_mount_dir (_project_info self);
      overlay_packages_dir (_project_info self);
      overlay_work_dir (_project_info self) ]
    (fun overlay_dir => Path_mkdir_parents_exist_ok overlay_dir).

(** [with pychroot.Chroot(root): body]. *)
Definition Chroot (root : Path) (body : M unit) : M unit :=
  with_stmt (lift_world (chroot_enter ext root))
            (fun exc => lift_world (chroot_exit ext root exc))
            (fun _ => body).

Definition refresh_packages_list : M unit :=
  self <~ get_self ;
  match _overlay_fs self with
  | None => raise (RuntimeError "overlay filesystem not mounted")
  | Some _ =>
    let mount_dir := overlay_mount_dir (_project_info self) in
    suppress_SystemExit
      (Chroot mount_dir
         (lift_world (repo_refresh_packages_list ext)))
  end.

Definition download_packages (package_names : list string) : M unit :=
  self <~ get_self ;
  match _overlay_fs self with
  | None => raise (RuntimeError "overlay filesystem not mounted")
  | Some _ =>
    let mount_dir := overlay_mount_dir (_project_info self) in
    suppress_SystemExit
      (Chroot mount_dir
         (lift_world (repo_download_packages ext package_names)))
  end.

Definition install_packages (package_names : list string) : M unit :=
  self <~ get_self ;
  match _overlay_fs self with
  | None => raise (RuntimeError "overlay filesystem not mounted")
  | Some _ =>
    let mount_dir := overlay_mount_dir (_project_info self) in
    suppress_SystemExit
      (Chroot mount_dir
         (lift_world (repo_install_packages ext package_names) ;~
          lift_world (fun w => (Return tt, rmtree_ignore_errors ext ["var"; "cache"] w))))
  end.

Definition fix_resolv_conf : M unit :=
  self <~ get_self ;
  let resolv := overlay_mount_dir (_project_info self) /: "etc" /: "resolv.conf" in
  is_link <~ Path_is_symlink resolv ;
  if is_link : bool
  then Path_unlink resolv ;~ Path_touch resolv
  else ret tt.

End Manager.

(** ** [class LayerMount]

    The attribute [_overlay_manager] is a reference to the manager of the
    program state: what the session does to it is seen by every other
    holder of the manager. *)
Module LayerMount.

Record t := {
  _top_part : Part;
  _pkg_cache : bool;
  _pid : nat
}.

Section Methods.

Variable ext : Collaborators.

Definition __init__ (top_part : Part) (pkg_cache : bool) : M t :=
  mkdirs ;~
  p <~ os_getpid ;
  ret {| _top_part := top_part; _pkg_cache := pkg_cache; _pid := p |}.

Definition __enter__ (self : t) : M t :=
  mount_layer ext (_top_part self) (_pkg_cache self) ;~
  fix_resolv_conf ;~
  ret self.

Definition __exit__ (self : t) (exc : option Exn) : M bool :=
  (* prevent pychroot process leak *)
  p <~ os_getpid ;
  (if decide (p <> _pid self) then sys_exit else ret tt) ;~
  unmount ext ;~
  ret false.

Definition install_packages (self : t) (package_names : list string) : M unit :=
  install_packages ext package_names.

(** [with LayerMount(overlay_manager, top_part, pkg_cache) as ctx: body]. *)
Definition scope (top_part : Part) (pkg_cache : bool) (body : t -> M unit)
  : M unit :=
  self <~ __init__ top_part pkg_cache ;
  with_stmt (__enter__ self) (__exit__ self) body.

End Methods.

End LayerMount.

(** ** [class PackageCacheMount] *)
Module PackageCacheMount.

Record t := {
  _pid : nat
}.

Section Methods.

Variable ext : Collaborators.

Definition __init__ : M t :=
  mkdirs ;~
  p <~ os_getpid ;
  ret {| _pid := p |}.

Definition __enter__ (self : t) : M t :=
  mount_pkg_cache ext ;~
  fix_resolv_conf ;~
  ret self.

Definition __exit__ (self : t) (exc : option Exn) : M bool :=
  (* prevent pychroot process leak *)
  p <~ os_getpid ;
  (if decide (p <> _pid self) then sys_exit else ret tt) ;~
  unmount ext ;~
  ret false.

Definition refresh_packages_list (self : t) : M unit :=
  refresh_packages_list ext.

Definition download_packages (self : t) (package_names : list string) : M unit :=
  download_packages ext package_names.

(** [with PackageCacheMount(overlay_manager) as ctx: body]. *)
Definition scope (body : t -> M unit) : M unit :=
  self <~ __init__ ;
  with_stmt (__enter__ self) (__exit__ self) body.

End Methods.

End PackageCacheMount.

(** ** A small project used in the examples *)
Module Sample.

Definition BASE : Path := ["base"].
Definition CACHE : Path := ["overlay"; "packages"].
Definition MNT : Path := ["overlay"; "overlay"].
Definition WORK : Path := ["overlay"; "work"].
Definition LA : Path := ["parts"; "A"; "layer"].
Definition LB : Path := ["parts"; "B"; "layer"].
Definition LC : Path := ["parts"; "C"; "layer"].

Definition info : ProjectInfo :=
  {| overlay_mount_dir := MNT;
     overlay_packages_dir := CACHE;
     overlay_work_dir := WORK |}.

Definition A : Part := {| part_name := "A"; part_layer_dir := LA |}.
Definition B : Part := {| part_name := "B"; part_layer_dir := LB |}.
Definition C : Part := {| part_name := "C"; part_layer_dir := LC |}.

(** Collaborators that never fail and leave the world as it is. *)
Definition quiet : Collaborators :=
  {| mount_fault := fun _ _ _ => None;
     unmount_fault := fun _ _ => None;
     chroot_enter := fun _ w => (Return tt, w);
     chroot_exit := fun _ _ w => (Return false, w);
     repo_refresh_packages_list := fun w => (Return tt, w);
     repo_download_packages := fun _ w => (Return tt, w);
     repo_install_packages := fun _ w => (Return tt, w);
     rmtree_ignore_errors := fun _ w => w |}.

(** The same, with a union-mount primitive whose unmount fails. *)
Definition busy : Collaborators :=
  {| mount_fault := fun _ _ _ => None;
     unmount_fault := fun _ _ => Some (ExternalError "umount: target is busy");
     chroot_enter := fun _ w => (Return tt, w);
     chroot_exit := fun _ _ w => (Return false, w);
     repo_refresh_packages_list := fun w => (Return tt, w);
     repo_download_packages := fun _ w => (Return tt, w);
     repo_install_packages := fun _ w => (Return tt, w);
     rmtree_ignore_errors := fun _ w => w |}.

(** The same as [quiet], with a package repository that leaves through
    [SystemExit]. *)
Definition leaving : Collaborators :=
  {| mount_fault := fun _ _ _ => None;
     unmount_fault := fun _ _ => None;
     chroot_enter := fun _ w => (Return tt, w);
     chroot_exit := fun _ _ w => (Return false, w);
     repo_refresh_packages_list := fun w => (Raise SystemExit, w);
     repo_download_packages := fun _ w => (Raise SystemExit, w);
     repo_install_packages := fun _ w => (Raise SystemExit, w);
     rmtree_ignore_errors := fun _ w => w |}.

(** A base image whose resolver configuration is a symbolic link. *)
Definition image : gmap Path Node :=
  <[BASE ++ ["etc"; "resolv.conf"] := Symlink "/run/systemd/resolve/stub-resolv.conf"]>
  (<[BASE ++ ["etc"] := Directory]> ∅).

Definition world0 : World :=
  {| files := image; mtab := []; pid := 4242; trace := [] |}.

Definition start (parts : list Part) (base : option Path) : State :=
  {| om := OverlayManager__init__ info parts base; env := world0 |}.

End Sample.

(** ** Vocabulary of the statements *)

(** The layer directories held by a manager are those of its parts, as
    [__init__] computes them; no method changes either list. *)
Definition layers_of_parts (self : OverlayManager) : Prop :=
  _layer_dirs self = map part_layer_dir (_part_list self).

Definition pkg_cache_stack (self : OverlayManager) (base : Path) : OverlayFS :=
  OverlayFS__init__ [base]
    (overlay_packages_dir (_project_info self))
    (overlay_work_dir (_project_info self)).

(** The stack [mount_layer] builds for the part found at position [i]. *)
Definition layer_stack (self : OverlayManager) (base : Path) (pkg_cache : bool)
    (i : nat) (upper : Path) : OverlayFS :=
  OverlayFS__init__
    (reverse (([base]
               ++ (if pkg_cache
                   then [overlay_packages_dir (_project_info self)]
                   else []))
              ++ take i (_layer_dirs self)))
    upper
    (overlay_work_dir (_project_info self)).

(** The state of a manager whose active-stack record is empty. *)
Definition forget_stack (s : State) : State :=
  set_om (set_overlay_fs None (om s)) s.

(** What both [__exit__] methods do: the process identity is compared
    first; [unmount] runs only when it is the recorded one, and then
    [__exit__] returns false. *)
Definition leave (ext : Collaborators) (owner : nat) (s : State)
  : Outcome bool * State :=
  if decide (pid (env s) <> owner)
  then (Raise SystemExit, s)
  else match unmount ext s with
       | (Return _, s') => (Return false, s')
       | (Raise e, s') => (Raise e, s')
       end.

(** The outcome of a block run under [contextlib.suppress(SystemExit)]. *)
Definition discard_SystemExit (r : Outcome unit * State) : Outcome unit * State :=
  match r with
  | (Raise SystemExit, s') => (Return tt, s')
  | _ => r
  end.

(** The block [Repository.install_packages(...); shutil.rmtree(...)]. *)
Definition install_block (ext : Collaborators) (package_names : list string)
  : M unit :=
  lift_world (repo_install_packages ext package_names) ;~
  lift_world (fun w => (Return tt, rmtree_ignore_errors ext ["var"; "cache"] w)).

Definition resolv_conf (self : OverlayManager) : Path :=
  overlay_mount_dir (_project_info self) /: "etc" /: "resolv.conf".

Definition set_pid (p : nat) (w : World) : World :=
  {| files := files w; mtab := mtab w; pid := p; trace := trace w |}.

(** A package operation that comes back in a forked child. *)
Definition fork_leak (child : nat) : M unit :=
  fun s => (Return tt, set_env (set_pid child (env s)) s).

Definition project : State :=
  Sample.start [Sample.A; Sample.B; Sample.C] (Some Sample.BASE).

Definition mounted_cache : State :=
  snd (mount_pkg_cache Sample.quiet
         (Sample.start [Sample.A; Sample.B; Sample.C] (Some Sample.BASE))).

(** The configuration of a manager: everything but the active-stack
    record. *)
Definition same_config (m m' : OverlayManager) : Prop :=
  _project_info m' = _project_info m /\
  _part_list m' = _part_list m /\
  _layer_dirs m' = _layer_dirs m /\
  _base_layer_dir m' = _base_layer_dir m.

(** An action that leaves the manager object as it is. *)
Definition keeps_manager {A} (c : M A) : Prop :=
  forall s, om (snd (c s)) = om s.

(** The directories [mkdirs] creates, in the order of its loop. *)
Definition overlay_dirs (self : OverlayManager) : list Path :=
  [ overlay_mount_dir (_project_info self);
    overlay_packages_dir (_project_info self);
    overlay_work_dir (_project_info self) ].

(** The lower directories below the layers of the parts. *)
Definition bottom_layers (self : OverlayManager) (base : Path) (pkg_cache : bool)
  : list Path :=
  if pkg_cache
  then [overlay_packages_dir (_project_info self); base]
  else [base].

(** Collaborators whose union-mount primitive refuses to mount. *)
Definition refusing : Collaborators :=
  {| mount_fault := fun _ _ _ => Some (ExternalError "mount: permission denied");
     unmount_fault := fun _ _ => None;
     chroot_enter := fun _ w => (Return tt, w);
     chroot_exit := fun _ _ w => (Return false, w);
     repo_refresh_packages_list := fun w => (Return tt, w);
     repo_download_packages := fun _ w => (Return tt, w);
     repo_install_packages := fun _ w => (Return tt, w);
     rmtree_ignore_errors := fun _ w => w |}.

(** [s1] is the state a mount operation of the manager returned in,
    started in [s0]. *)
Definition mounted_from (ext : Collaborators) (s0 s1 : State) : Prop :=
  (exists part pkg_cache, mount_layer ext part pkg_cache s0 = (Return tt, s1)) \/
  mount_pkg_cache ext s0 = (Return tt, s1).

(** The state after the union-mount primitive has mounted [fs0] for the
    manager of [s0]. *)
Definition after_mount (fs0 : OverlayFS) (s0 : State) : State :=
  let target := overlay_mount_dir (_project_info (om s0)) in
  {| om := set_overlay_fs (Some (set_mountpoint target fs0)) (om s0);
     env := set_mtab (mount_of fs0 target :: mtab (env s0))
              (log_event
                 (EvMount (lower_dirs fs0) (upper_dir fs0) (work_dir fs0) target)
                 (env s0)) |}.

(** Every directory [mkdirs] looks at, in order: each overlay directory
    preceded by its ancestors. *)
Definition directories_to_make (self : OverlayManager) : list Path :=
  concat (map (ancestors_from []) (overlay_dirs self)).

(** The sample project after a session on the package cache has come
    and gone. *)
Definition cache_prepared : State :=
  snd (PackageCacheMount.scope Sample.quiet (fun _ => ret tt) project).

(** * Properties *)

(** ** Helper lemmas *)

Lemma list_index_first {A} `{EqDecision A} (x : A) (l : list A) (i : nat) :
  l !! i = Some x ->
  (forall j, j < i -> l !! j <> Some x) ->
  list_index x l = Some i.
Proof.
  revert i. induction l as [|y l IH]; intros i Hi Hfirst.
  - destruct i; discriminate.
  - simpl. destruct (decide (y = x)) as [->|Hne].
    + destruct i as [|i]; [reflexivity|].
      exfalso. apply (Hfirst 0); [lia | reflexivity].
    + destruct i as [|i].
      * simpl in Hi. congruence.
      * rewrite (IH i); [reflexivity | exact Hi |].
        intros j Hj. apply (Hfirst (S j)). lia.
Qed.

Lemma list_index_found {A} `{EqDecision A} (x : A) (l : list A) (i : nat) :
  list_index x l = Some i ->
  l !! i = Some x /\ (forall j, j < i -> l !! j <> Some x).
Proof.
  revert i. induction l as [|y l IH]; intros i Hi; simpl in Hi.
  - discriminate.
  - destruct (decide (y = x)) as [->|Hne].
    + injection Hi as <-. split; [reflexivity | intros j Hj; lia].
    + destruct (list_index x l) as [k|] eqn:Hk; simpl in Hi; [|discriminate].
      injection Hi as <-. destruct (IH k eq_refl) as [Hat Hbefore].
      split; [exact Hat|].
      intros [|j] Hj; simpl; [congruence | apply Hbefore; lia].
Qed.

(** In a list without repetition every position is a first position. *)
Lemma list_index_NoDup {A} `{EqDecision A} (x : A) (l : list A) (i : nat) :
  NoDup l -> l !! i = Some x -> list_index x l = Some i.
Proof.
  intros Hnd Hi. apply list_index_first; [exact Hi|].
  intros j Hj Hjx.
  assert (j = i) by (eapply NoDup_lookup; eauto). lia.
Qed.

Lemma OverlayManager__init__layers info parts base :
  layers_of_parts (OverlayManager__init__ info parts base).
Proof. reflexivity. Qed.

(** ** The stack handed to the union-mount primitive *)

(** C1, as amended.  For every manager with a base layer [base], every
    package-cache flag and every target part whose first occurrence in the
    part list is at position [i], [mount_layer] calls the union-mount
    primitive with the lower directories
    [reverse ([base] ++ [cache, if requested] ++ layer_dirs[0..i))], the
    upper directory [layer_dirs[i]], the work directory and the mount
    directory of the project. *)
Theorem mount_layer_stack
    (ext : Collaborators) (s : State) (base : Path) (pkg_cache : bool)
    (part : Part) (i : nat) :
  _base_layer_dir (om s) = Some base ->
  layers_of_parts (om s) ->
  _part_list (om s) !! i = Some part ->
  (forall j, j < i -> _part_list (om s) !! j <> Some part) ->
  exists upper,
    _layer_dirs (om s) !! i = Some upper /\
    trace (env (snd (mount_layer ext part pkg_cache s))) =
      EvMount
        (reverse ([base]
                  ++ (if pkg_cache
                      then [overlay_packages_dir (_project_info (om s))]
                      else [])
                  ++ take i (_layer_dirs (om s))))
        upper
        (overlay_work_dir (_project_info (om s)))
        (overlay_mount_dir (_project_info (om s)))
      :: trace (env s).
Proof.
  intros Hbase Hlayers Hat Hfirst.
  exists (part_layer_dir part).
  assert (Hupper : _layer_dirs (om s) !! i = Some (part_layer_dir part)).
  { rewrite Hlayers, list_lookup_fmap, Hat. reflexivity. }
  split; [exact Hupper|].
  unfold mount_layer, bind, get_self.
  rewrite Hbase, (list_index_first _ _ _ Hat Hfirst), Hupper.
  unfold put_overlay_fs, overlay_fs_mount, bind, lift_world, OverlayFS_mount.
  cbn [env om set_om set_env].
  destruct (mount_fault ext _ _ _); destruct pkg_cache; cbn;
    rewrite <- ?app_assoc; reflexivity.
Qed.

(** Parts A, B, C, cache disabled: mounting for C gives the lower
    directories LB, LA, BASE and the upper directory LC. *)
Lemma mount_layer_stack_witness :
  trace (env (snd (mount_layer Sample.quiet Sample.C false
                     (Sample.start [Sample.A; Sample.B; Sample.C]
                        (Some Sample.BASE))))) =
  [EvMount [Sample.LB; Sample.LA; Sample.BASE] Sample.LC Sample.WORK Sample.MNT].
Proof.
  destruct (mount_layer_stack Sample.quiet
              (Sample.start [Sample.A; Sample.B; Sample.C] (Some Sample.BASE))
              Sample.BASE false Sample.C 2) as [upper [Hupper Htrace]].
  - reflexivity.
  - reflexivity.
  - reflexivity.
  - intros [|[|j]] Hj; [discriminate | discriminate | lia].
  - injection Hupper as <-. exact Htrace.
Defined.

(** Same parts, cache enabled: mounting for B gives the lower
    directories LA, CACHE, BASE and the upper directory LB. *)
Example mount_layer_cache_scenario :
  trace (env (snd (mount_layer Sample.quiet Sample.B true
                     (Sample.start [Sample.A; Sample.B; Sample.C]
                        (Some Sample.BASE))))) =
  [EvMount [Sample.LA; Sample.CACHE; Sample.BASE] Sample.LB Sample.WORK Sample.MNT].
Proof. reflexivity. Qed.

(** C1 as stated fails when the target part also stands at an earlier
    position: with the part list [A; A] the part at position 1 is A, and
    [mount_layer] hands over the lower directories [BASE], not
    [reverse ([BASE] ++ layer_dirs[0..1)) = [LA; BASE]]. *)
Lemma mount_layer_repeated_part :
  let s := Sample.start [Sample.A; Sample.A] (Some Sample.BASE) in
  _part_list (om s) !! 1 = Some Sample.A /\
  trace (env (snd (mount_layer Sample.quiet Sample.A false s))) =
    [EvMount [Sample.BASE] Sample.LA Sample.WORK Sample.MNT] /\
  reverse ([Sample.BASE] ++ [] ++ take 1 (_layer_dirs (om s))) =
    [Sample.LA; Sample.BASE] /\
  [Sample.BASE] <> reverse ([Sample.BASE] ++ [] ++ take 1 (_layer_dirs (om s))).
Proof.
  cbn zeta. split; [reflexivity|]. split; [reflexivity|].
  split; [reflexivity | discriminate].
Qed.

(** ** Mounting and the active-stack record *)

(** What [mount_pkg_cache] does once a base layer is configured. *)
Lemma mount_pkg_cache_run (ext : Collaborators) (s : State) (base : Path) :
  _base_layer_dir (om s) = Some base ->
  let fs := pkg_cache_stack (om s) base in
  let target := overlay_mount_dir (_project_info (om s)) in
  let w1 := log_event (EvMount [base] (upper_dir fs) (work_dir fs) target) (env s) in
  mount_pkg_cache ext s =
    match mount_fault ext fs target (env s) with
    | Some e => (Raise e, {| om := set_overlay_fs (Some fs) (om s); env := w1 |})
    | None =>
      (Return tt,
       {| om := set_overlay_fs (Some (set_mountpoint target fs)) (om s);
          env := set_mtab (mount_of fs target :: mtab (env s)) w1 |})
    end.
Proof.
  intros Hbase. cbn zeta.
  unfold mount_pkg_cache, bind, get_self. rewrite Hbase.
  unfold put_overlay_fs, overlay_fs_mount, bind, lift_world, OverlayFS_mount.
  cbn [env om set_om set_env].
  unfold pkg_cache_stack.
  destruct (mount_fault ext _ _ _); reflexivity.
Qed.

Lemma mount_layer_forget (ext : Collaborators) (s : State) (part : Part)
    (pkg_cache : bool) :
  fst (mount_layer ext part pkg_cache s) =
    fst (mount_layer ext part pkg_cache (forget_stack s)) /\
  (fst (mount_layer ext part pkg_cache s) = Return tt ->
   snd (mount_layer ext part pkg_cache s) =
     snd (mount_layer ext part pkg_cache (forget_stack s))).
Proof.
  unfold mount_layer, forget_stack, bind, get_self.
  cbn [om set_om set_overlay_fs _base_layer_dir _part_list _layer_dirs
       _project_info].
  destruct (_base_layer_dir (om s)); cbn; [|split; [reflexivity|discriminate]].
  destruct (list_index part (_part_list (om s))); cbn;
    [|split; [reflexivity|discriminate]].
  destruct (_layer_dirs (om s) !! n); cbn; [|split; [reflexivity|discriminate]].
  unfold overlay_fs_mount, bind, lift_world, OverlayFS_mount, put_overlay_fs.
  cbn [env om set_om set_env].
  destruct (mount_fault ext _ _ _); cbn; split; try reflexivity; discriminate.
Qed.

Lemma mount_pkg_cache_forget (ext : Collaborators) (s : State) :
  fst (mount_pkg_cache ext s) = fst (mount_pkg_cache ext (forget_stack s)) /\
  (fst (mount_pkg_cache ext s) = Return tt ->
   snd (mount_pkg_cache ext s) = snd (mount_pkg_cache ext (forget_stack s))).
Proof.
  unfold mount_pkg_cache, forget_stack, bind, get_self.
  cbn [om set_om set_overlay_fs _base_layer_dir _project_info].
  destruct (_base_layer_dir (om s)); cbn; [|split; [reflexivity|discriminate]].
  unfold overlay_fs_mount, bind, lift_world, OverlayFS_mount, put_overlay_fs.
  cbn [env om set_om set_env].
  destruct (mount_fault ext _ _ _); cbn; split; try reflexivity; discriminate.
Qed.

(** C2, as amended.  The manager does not reject a mount attempt made
    while a stack is recorded: [mount_layer] and [mount_pkg_cache] never
    read the active-stack record, so their outcome is the one they have on
    the same manager with no stack recorded, and when they return the new
    stack has replaced the recorded one (the manager records a single
    stack).  In particular [mount_pkg_cache] on a mounted manager with a
    base layer returns normally exactly when the union-mount primitive
    does. *)
Theorem second_mount_not_rejected
    (ext : Collaborators) (s : State) (old : OverlayFS) (base : Path) :
  _overlay_fs (om s) = Some old ->
  _base_layer_dir (om s) = Some base ->
  let fs := pkg_cache_stack (om s) base in
  let target := overlay_mount_dir (_project_info (om s)) in
  (forall part pkg_cache,
     fst (mount_layer ext part pkg_cache s) =
       fst (mount_layer ext part pkg_cache (forget_stack s)) /\
     (fst (mount_layer ext part pkg_cache s) = Return tt ->
      snd (mount_layer ext part pkg_cache s) =
        snd (mount_layer ext part pkg_cache (forget_stack s)))) /\
  fst (mount_pkg_cache ext s) = fst (mount_pkg_cache ext (forget_stack s)) /\
  fst (mount_pkg_cache ext s) =
    match mount_fault ext fs target (env s) with
    | Some e => Raise e
    | None => Return tt
    end /\
  (mount_fault ext fs target (env s) = None ->
   _overlay_fs (om (snd (mount_pkg_cache ext s))) = Some (set_mountpoint target fs) /\
   mtab (env (snd (mount_pkg_cache ext s))) = mount_of fs target :: mtab (env s)).
Proof.
  intros Hold Hbase. cbn zeta.
  split; [intros part pkg_cache; apply mount_layer_forget|].
  split; [apply mount_pkg_cache_forget|].
  rewrite (mount_pkg_cache_run ext s base Hbase). cbn zeta.
  split.
  - destruct (mount_fault ext _ _ _); reflexivity.
  - intros Hok. rewrite Hok. split; reflexivity.
Qed.

Lemma second_mount_not_rejected_witness :
  fst (mount_pkg_cache Sample.quiet mounted_cache) = Return tt /\
  mtab (env (snd (mount_pkg_cache Sample.quiet mounted_cache))) =
    [ mount_of (pkg_cache_stack (om mounted_cache) Sample.BASE) Sample.MNT;
      mount_of (pkg_cache_stack (om mounted_cache) Sample.BASE) Sample.MNT ].
Proof.
  destruct (second_mount_not_rejected Sample.quiet mounted_cache
              (set_mountpoint Sample.MNT
                 (pkg_cache_stack (om mounted_cache) Sample.BASE))
              Sample.BASE eq_refl eq_refl)
    as (_ & _ & Hout & Hrec).
  split; [exact Hout|].
  destruct (Hrec eq_refl) as [_ Hmtab]. exact Hmtab.
Defined.

(** C2 as stated fails: on a manager that has mounted the package cache
    and not unmounted it, a second [mount_pkg_cache] and a [mount_layer]
    both return normally, and the union-mount primitive has been called
    twice. *)
Lemma second_mount_accepted :
  is_Some (_overlay_fs (om mounted_cache)) /\
  fst (mount_pkg_cache Sample.quiet mounted_cache) = Return tt /\
  fst (mount_layer Sample.quiet Sample.A true mounted_cache) = Return tt /\
  (forall e, fst (mount_layer Sample.quiet Sample.A true mounted_cache) <> Raise e) /\
  length (trace (env (snd (mount_layer Sample.quiet Sample.A true mounted_cache)))) = 2.
Proof.
  split; [eexists; reflexivity|].
  split; [reflexivity|].
  split; [reflexivity|].
  split; [intros e; discriminate | reflexivity].
Qed.

(** ** Leaving a scoped mount session *)

Lemma LayerMount__exit__leave ext (self : LayerMount.t) exc s :
  LayerMount.__exit__ ext self exc s = leave ext (LayerMount._pid self) s.
Proof.
  unfold LayerMount.__exit__, leave, bind, os_getpid, sys_exit, raise, ret.
  destruct (decide (pid (env s) <> LayerMount._pid self)); [reflexivity|].
  destruct (unmount ext s) as [[[]|e] s']; reflexivity.
Qed.

Lemma PackageCacheMount__exit__leave ext (self : PackageCacheMount.t) exc s :
  PackageCacheMount.__exit__ ext self exc s =
    leave ext (PackageCacheMount._pid self) s.
Proof.
  unfold PackageCacheMount.__exit__, leave, bind, os_getpid, sys_exit, raise, ret.
  destruct (decide (pid (env s) <> PackageCacheMount._pid self)); [reflexivity|].
  destruct (unmount ext s) as [[[]|e] s']; reflexivity.
Qed.

(** A [with] statement whose entry succeeded and whose body has run. *)
Lemma with_stmt_run {A} (cm_enter : M A) (cm_exit : option Exn -> M bool)
    (body : A -> M unit) s a s1 r s2 :
  cm_enter s = (Return a, s1) ->
  body a s1 = (r, s2) ->
  with_stmt cm_enter cm_exit body s =
    match r with
    | Return _ =>
      match cm_exit None s2 with
      | (Return _, s3) => (Return tt, s3)
      | (Raise e', s3) => (Raise e', s3)
      end
    | Raise e =>
      match cm_exit (Some e) s2 with
      | (Return true, s3) => (Return tt, s3)
      | (Return false, s3) => (Raise e, s3)
      | (Raise e', s3) => (Raise e', s3)
      end
    end.
Proof.
  intros Henter Hbody. unfold with_stmt. rewrite Henter, Hbody.
  destruct r; reflexivity.
Qed.

Lemma LayerMount_scope_run ext top_part pkg_cache body s0 self sI a s1 r s2 :
  LayerMount.__init__ top_part pkg_cache s0 = (Return self, sI) ->
  LayerMount.__enter__ ext self sI = (Return a, s1) ->
  body a s1 = (r, s2) ->
  LayerMount.scope ext top_part pkg_cache body s0 =
    match leave ext (LayerMount._pid self) s2 with
    | (Return true, s3) => (Return tt, s3)
    | (Return false, s3) => (r, s3)
    | (Raise e', s3) => (Raise e', s3)
    end.
Proof.
  intros Hinit Henter Hbody.
  unfold LayerMount.scope, bind. rewrite Hinit.
  rewrite (with_stmt_run _ _ _ _ _ _ _ _ Henter Hbody).
  destruct r as [[]|e]; rewrite LayerMount__exit__leave;
    destruct (leave ext _ s2) as [[[|]|e'] s3]; reflexivity.
Qed.

Lemma PackageCacheMount_scope_run ext body s0 self sI a s1 r s2 :
  PackageCacheMount.__init__ s0 = (Return self, sI) ->
  PackageCacheMount.__enter__ ext self sI = (Return a, s1) ->
  body a s1 = (r, s2) ->
  PackageCacheMount.scope ext body s0 =
    match leave ext (PackageCacheMount._pid self) s2 with
    | (Return true, s3) => (Return tt, s3)
    | (Return false, s3) => (r, s3)
    | (Raise e', s3) => (Raise e', s3)
    end.
Proof.
  intros Hinit Henter Hbody.
  unfold PackageCacheMount.scope, bind. rewrite Hinit.
  rewrite (with_stmt_run _ _ _ _ _ _ _ _ Henter Hbody).
  destruct r as [[]|e]; rewrite PackageCacheMount__exit__leave;
    destruct (leave ext _ s2) as [[[|]|e'] s3]; reflexivity.
Qed.

(** The session records the identity of the process that creates it. *)
Lemma LayerMount__init__pid top_part pkg_cache s0 self sI :
  LayerMount.__init__ top_part pkg_cache s0 = (Return self, sI) ->
  LayerMount._pid self = pid (env sI).
Proof.
  unfold LayerMount.__init__, bind, os_getpid, ret.
  destruct (mkdirs s0) as [[[]|e] s']; intros H; [|discriminate].
  injection H as <- <-. reflexivity.
Qed.

Lemma PackageCacheMount__init__pid s0 self sI :
  PackageCacheMount.__init__ s0 = (Return self, sI) ->
  PackageCacheMount._pid self = pid (env sI).
Proof.
  unfold PackageCacheMount.__init__, bind, os_getpid, ret.
  destruct (mkdirs s0) as [[[]|e] s']; intros H; [|discriminate].
  injection H as <- <-. reflexivity.
Qed.

Lemma leave_mismatch ext owner s :
  pid (env s) <> owner -> leave ext owner s = (Raise SystemExit, s).
Proof.
  intros Hne. unfold leave.
  destruct (decide (pid (env s) <> owner)); [reflexivity | contradiction].
Qed.

Lemma leave_match ext owner s :
  pid (env s) = owner ->
  leave ext owner s =
    match unmount ext s with
    | (Return _, s') => (Return false, s')
    | (Raise e, s') => (Raise e, s')
    end.
Proof.
  intros Heq. unfold leave.
  destruct (decide (pid (env s) <> owner)); [contradiction | reflexivity].
Qed.

(** C3.  On scope exit of either session the identity of the running
    process is compared with the one recorded at creation before anything
    else: when they differ [__exit__] raises [SystemExit] ([sys.exit()])
    and the state is the one it found, so [unmount] has not been called
    (the active-stack record and the calls received by the union-mount
    primitive are unchanged); the [with] statement then ends with
    [SystemExit] whatever the outcome of its body. *)
Theorem exit_in_leaked_child
    (ext : Collaborators) (s : State) (owner : nat) :
  pid (env s) <> owner ->
  (forall (self : LayerMount.t) exc,
     LayerMount._pid self = owner ->
     LayerMount.__exit__ ext self exc s = (Raise SystemExit, s)) /\
  (forall (self : PackageCacheMount.t) exc,
     PackageCacheMount._pid self = owner ->
     PackageCacheMount.__exit__ ext self exc s = (Raise SystemExit, s)) /\
  (forall top_part pkg_cache body s0 self sI a s1 r,
     LayerMount._pid self = owner ->
     LayerMount.__init__ top_part pkg_cache s0 = (Return self, sI) ->
     LayerMount.__enter__ ext self sI = (Return a, s1) ->
     body a s1 = (r, s) ->
     LayerMount.scope ext top_part pkg_cache body s0 = (Raise SystemExit, s)) /\
  (forall body s0 self sI a s1 r,
     PackageCacheMount._pid self = owner ->
     PackageCacheMount.__init__ s0 = (Return self, sI) ->
     PackageCacheMount.__enter__ ext self sI = (Return a, s1) ->
     body a s1 = (r, s) ->
     PackageCacheMount.scope ext body s0 = (Raise SystemExit, s)).
Proof.
  intros Hne. repeat split.
  - intros self exc <-. rewrite LayerMount__exit__leave.
    apply leave_mismatch, Hne.
  - intros self exc <-. rewrite PackageCacheMount__exit__leave.
    apply leave_mismatch, Hne.
  - intros top_part pkg_cache body s0 self sI a s1 r <- Hinit Henter Hbody.
    rewrite (LayerMount_scope_run _ _ _ _ _ _ _ _ _ _ _ Hinit Henter Hbody).
    rewrite (leave_mismatch _ _ _ Hne). reflexivity.
  - intros body s0 self sI a s1 r <- Hinit Henter Hbody.
    rewrite (PackageCacheMount_scope_run _ _ _ _ _ _ _ _ _ Hinit Henter Hbody).
    rewrite (leave_mismatch _ _ _ Hne). reflexivity.
Qed.

(** A child leaked inside the scope ends it with [SystemExit]; the
    mount of the session is still there and the primitive has only seen
    the mount call. *)
Lemma exit_in_leaked_child_witness :
  let out := LayerMount.scope Sample.quiet Sample.B true
               (fun _ => fork_leak 7) project in
  fst out = Raise SystemExit /\
  trace (env (snd out)) =
    [EvMount [Sample.LA; Sample.CACHE; Sample.BASE] Sample.LB Sample.WORK Sample.MNT] /\
  is_Some (_overlay_fs (om (snd out))).
Proof.
  pose (self := {| LayerMount._top_part := Sample.B;
                   LayerMount._pkg_cache := true;
                   LayerMount._pid := 4242 |}).
  pose (sI := snd (LayerMount.__init__ Sample.B true project)).
  pose (s1 := snd (LayerMount.__enter__ Sample.quiet self sI)).
  pose (s2 := snd (fork_leak 7 s1)).
  assert (Hne : pid (env s2) <> 4242) by (vm_compute; lia).
  destruct (exit_in_leaked_child Sample.quiet s2 4242 Hne) as (_ & _ & Hscope & _).
  cbn zeta.
  rewrite (Hscope Sample.B true (fun _ => fork_leak 7) project self sI self s1
             (Return tt) eq_refl);
    [ | vm_compute; reflexivity | vm_compute; reflexivity | vm_compute; reflexivity ].
  split; [reflexivity|].
  split; [vm_compute; reflexivity | eexists; vm_compute; reflexivity].
Defined.

(** The union-mount primitive is called by [unmount] whenever a stack is
    recorded. *)
Lemma unmount_reaches_primitive ext s fs :
  _overlay_fs (om s) = Some fs ->
  trace (env (snd (unmount ext s))) = EvUnmount fs :: trace (env s).
Proof.
  intros Hfs. unfold unmount, bind, get_self. rewrite Hfs.
  unfold lift_world, OverlayFS_unmount, put_overlay_fs.
  destruct (unmount_fault ext fs (env s)); [reflexivity|].
  destruct (mountpoint fs); reflexivity.
Qed.

(** C4.  In the process that created the session, [__exit__] of either
    session is [unmount()] followed by [return False], whatever exception
    is in flight.  So for a scope whose entry succeeded, [unmount()] runs
    on every way out of the body; when it returns, the outcome of the
    scope is the outcome of the body (an exception of the body is raised
    again); when it raises, its exception is the outcome of the scope.
    With a stack recorded, that call reaches the union-mount primitive. *)
Theorem exit_unmounts
    (ext : Collaborators) (s : State) (owner : nat) :
  pid (env s) = owner ->
  (forall (self : LayerMount.t) exc,
     LayerMount._pid self = owner ->
     LayerMount.__exit__ ext self exc s =
       match unmount ext s with
       | (Return _, s') => (Return false, s')
       | (Raise e, s') => (Raise e, s')
       end) /\
  (forall (self : PackageCacheMount.t) exc,
     PackageCacheMount._pid self = owner ->
     PackageCacheMount.__exit__ ext self exc s =
       match unmount ext s with
       | (Return _, s') => (Return false, s')
       | (Raise e, s') => (Raise e, s')
       end) /\
  (forall top_part pkg_cache body s0 self sI a s1 r,
     LayerMount._pid self = owner ->
     LayerMount.__init__ top_part pkg_cache s0 = (Return self, sI) ->
     LayerMount.__enter__ ext self sI = (Return a, s1) ->
     body a s1 = (r, s) ->
     LayerMount.scope ext top_part pkg_cache body s0 =
       match unmount ext s with
       | (Return _, s') => (r, s')
       | (Raise e, s') => (Raise e, s')
       end) /\
  (forall body s0 self sI a s1 r,
     PackageCacheMount._pid self = owner ->
     PackageCacheMount.__init__ s0 = (Return self, sI) ->
     PackageCacheMount.__enter__ ext self sI = (Return a, s1) ->
     body a s1 = (r, s) ->
     PackageCacheMount.scope ext body s0 =
       match unmount ext s with
       | (Return _, s') => (r, s')
       | (Raise e, s') => (Raise e, s')
       end) /\
  (forall fs,
     _overlay_fs (om s) = Some fs ->
     trace (env (snd (unmount ext s))) = EvUnmount fs :: trace (env s)).
Proof.
  intros Heq. repeat split.
  - intros self exc <-. rewrite LayerMount__exit__leave.
    apply leave_match, Heq.
  - intros self exc <-. rewrite PackageCacheMount__exit__leave.
    apply leave_match, Heq.
  - intros top_part pkg_cache body s0 self sI a s1 r <- Hinit Henter Hbody.
    rewrite (LayerMount_scope_run _ _ _ _ _ _ _ _ _ _ _ Hinit Henter Hbody).
    rewrite (leave_match _ _ _ Heq).
    destruct (unmount ext s) as [[[]|e] s']; reflexivity.
  - intros body s0 self sI a s1 r <- Hinit Henter Hbody.
    rewrite (PackageCacheMount_scope_run _ _ _ _ _ _ _ _ _ Hinit Henter Hbody).
    rewrite (leave_match _ _ _ Heq).
    destruct (unmount ext s) as [[[]|e] s']; reflexivity.
  - intros fs Hfs. apply unmount_reaches_primitive, Hfs.
Qed.

(** A body that raises: the stack is unmounted and the exception of the
    body comes out of the scope. *)
Lemma exit_unmounts_witness :
  let out := LayerMount.scope Sample.quiet Sample.B true
               (fun _ => raise (ValueError "boom")) project in
  fst out = Raise (ValueError "boom") /\
  _overlay_fs (om (snd out)) = None /\
  mtab (env (snd out)) = [] /\
  length (trace (env (snd out))) = 2.
Proof.
  pose (self := {| LayerMount._top_part := Sample.B;
                   LayerMount._pkg_cache := true;
                   LayerMount._pid := 4242 |}).
  pose (sI := snd (LayerMount.__init__ Sample.B true project)).
  pose (s1 := snd (LayerMount.__enter__ Sample.quiet self sI)).
  assert (Heq : pid (env s1) = 4242) by (vm_compute; reflexivity).
  destruct (exit_unmounts Sample.quiet s1 4242 Heq) as (_ & _ & Hscope & _).
  cbn zeta.
  rewrite (Hscope Sample.B true (fun _ => raise (ValueError "boom")) project
             self sI self s1 (Raise (ValueError "boom")) eq_refl);
    [ | vm_compute; reflexivity | vm_compute; reflexivity | reflexivity ].
  repeat split; vm_compute; reflexivity.
Defined.

(** ** Unmounting *)

Lemma unmount_without_stack ext s :
  _overlay_fs (om s) = None ->
  unmount ext s = (Raise (RuntimeError "filesystem is not mounted"), s).
Proof.
  intros Hnone. unfold unmount, bind, get_self. rewrite Hnone. reflexivity.
Qed.

(** What [unmount] does with a recorded stack. *)
Lemma unmount_run ext s fs :
  _overlay_fs (om s) = Some fs ->
  unmount ext s =
    match unmount_fault ext fs (env s) with
    | Some e => (Raise e, set_env (log_event (EvUnmount fs) (env s)) s)
    | None =>
      (Return tt,
       {| om := set_overlay_fs None (om s);
          env := match mountpoint fs with
                 | Some target =>
                   set_mtab (drop_mount target (mtab (env s)))
                     (log_event (EvUnmount fs) (env s))
                 | None => log_event (EvUnmount fs) (env s)
                 end |})
    end.
Proof.
  intros Hfs. unfold unmount, bind, get_self. rewrite Hfs.
  unfold lift_world, OverlayFS_unmount, put_overlay_fs.
  destruct (unmount_fault ext fs (env s)); [reflexivity|].
  destruct (mountpoint fs); reflexivity.
Qed.

(** A mount operation that returns has recorded a stack. *)
Lemma mount_layer_records ext part pkg_cache s0 s :
  mount_layer ext part pkg_cache s0 = (Return tt, s) ->
  is_Some (_overlay_fs (om s)).
Proof.
  unfold mount_layer, bind, get_self.
  destruct (_base_layer_dir (om s0)); [|discriminate].
  destruct (list_index part (_part_list (om s0))); [|discriminate].
  destruct (_layer_dirs (om s0) !! n); [|discriminate].
  unfold put_overlay_fs, overlay_fs_mount, bind, lift_world, OverlayFS_mount.
  cbn [env om set_om set_env].
  destruct (mount_fault ext _ _ _); [discriminate|].
  intros H. injection H as <-. eexists. reflexivity.
Qed.

Lemma mount_pkg_cache_records ext s0 s :
  mount_pkg_cache ext s0 = (Return tt, s) ->
  is_Some (_overlay_fs (om s)).
Proof.
  unfold mount_pkg_cache, bind, get_self.
  destruct (_base_layer_dir (om s0)); [|discriminate].
  unfold put_overlay_fs, overlay_fs_mount, bind, lift_world, OverlayFS_mount.
  cbn [env om set_om set_env].
  destruct (mount_fault ext _ _ _); [discriminate|].
  intros H. injection H as <-. eexists. reflexivity.
Qed.

(** C5, as amended.  [unmount()] with no stack recorded raises
    [RuntimeError] (the spec's IllegalState) and changes nothing.  After a
    mount operation that returned, a stack is recorded, and when the
    unmount of the union-mount primitive returns for it, [unmount()]
    returns and clears the record; a second [unmount()] in a row then
    raises [RuntimeError]. *)
Theorem unmount_lifecycle (ext : Collaborators) (s : State) :
  (_overlay_fs (om s) = None ->
   unmount ext s = (Raise (RuntimeError "filesystem is not mounted"), s)) /\
  (forall s0,
     (exists part pkg_cache, mount_layer ext part pkg_cache s0 = (Return tt, s)) \/
     mount_pkg_cache ext s0 = (Return tt, s) ->
     exists fs,
       _overlay_fs (om s) = Some fs /\
       (unmount_fault ext fs (env s) = None ->
        exists s',
          unmount ext s = (Return tt, s') /\
          _overlay_fs (om s') = None /\
          unmount ext s' = (Raise (RuntimeError "filesystem is not mounted"), s'))).
Proof.
  split; [apply unmount_without_stack|].
  intros s0 Hmounted.
  assert (Hsome : is_Some (_overlay_fs (om s))).
  { destruct Hmounted as [(part & pkg_cache & H)|H].
    - eapply mount_layer_records, H.
    - eapply mount_pkg_cache_records, H. }
  destruct Hsome as [fs Hfs]. exists fs. split; [exact Hfs|].
  intros Hok. rewrite (unmount_run ext s fs Hfs), Hok.
  eexists. split; [reflexivity|]. split; [reflexivity|].
  apply unmount_without_stack. reflexivity.
Qed.

Lemma unmount_lifecycle_witness :
  unmount Sample.quiet project =
    (Raise (RuntimeError "filesystem is not mounted"), project) /\
  exists s',
    unmount Sample.quiet mounted_cache = (Return tt, s') /\
    _overlay_fs (om s') = None /\
    mtab (env s') = [] /\
    unmount Sample.quiet s' = (Raise (RuntimeError "filesystem is not mounted"), s').
Proof.
  split.
  - apply (unmount_lifecycle Sample.quiet project). reflexivity.
  - destruct (unmount_lifecycle Sample.quiet mounted_cache) as [_ Hcycle].
    destruct (Hcycle project (or_intror eq_refl)) as (fs & Hfs & Hrun).
    destruct (Hrun eq_refl) as (s' & Hfirst & Hcleared & Hsecond).
    exists s'. repeat split; try assumption.
    rewrite Hfirst in *.
    assert (Hs' : snd (unmount Sample.quiet mounted_cache) = s')
      by (rewrite Hfirst; reflexivity).
    rewrite <- Hs'. reflexivity.
Defined.

(** C5 as stated fails when the unmount of the union-mount primitive
    raises: after a mount that returned, [unmount()] then raises that
    error, the stack stays recorded, and the [unmount()] that follows does
    not raise [RuntimeError]. *)
Lemma unmount_after_mount_can_fail :
  let s1 := snd (mount_pkg_cache Sample.busy project) in
  let out := unmount Sample.busy s1 in
  fst (mount_pkg_cache Sample.busy project) = Return tt /\
  fst out = Raise (ExternalError "umount: target is busy") /\
  is_Some (_overlay_fs (om (snd out))) /\
  fst (unmount Sample.busy (snd out)) <>
    Raise (RuntimeError "filesystem is not mounted").
Proof.
  cbn zeta. split; [reflexivity|]. split; [reflexivity|].
  split; [eexists; reflexivity | discriminate].
Qed.

(** C10.  When the unmount of the union-mount primitive raises during
    [unmount()], the error comes out of [unmount()] and the manager is
    left as it was, the stack still recorded: the record is only cleared
    after the primitive has returned.  A later [unmount()] on that manager
    therefore passes the check of the record: it never raises on that
    account, calls the primitive again and has the outcome the primitive
    gives it. *)
Theorem failed_unmount_keeps_stack
    (ext : Collaborators) (s : State) (fs : OverlayFS) (e : Exn) :
  _overlay_fs (om s) = Some fs ->
  unmount_fault ext fs (env s) = Some e ->
  fst (unmount ext s) = Raise e /\
  om (snd (unmount ext s)) = om s /\
  _overlay_fs (om (snd (unmount ext s))) = Some fs /\
  (forall s',
     om s' = om (snd (unmount ext s)) ->
     fst (unmount ext s') =
       match unmount_fault ext fs (env s') with
       | Some e' => Raise e'
       | None => Return tt
       end /\
     trace (env (snd (unmount ext s'))) = EvUnmount fs :: trace (env s')).
Proof.
  intros Hfs Hfault.
  rewrite (unmount_run ext s fs Hfs), Hfault. cbn [fst snd om set_env].
  split; [reflexivity|]. split; [reflexivity|]. split; [exact Hfs|].
  intros s' Hom.
  assert (Hfs' : _overlay_fs (om s') = Some fs) by (rewrite Hom; exact Hfs).
  split.
  - rewrite (unmount_run ext s' fs Hfs').
    destruct (unmount_fault ext fs (env s')); reflexivity.
  - apply unmount_reaches_primitive, Hfs'.
Qed.

Lemma failed_unmount_keeps_stack_witness :
  let s1 := snd (mount_pkg_cache Sample.busy project) in
  fst (unmount Sample.busy s1) = Raise (ExternalError "umount: target is busy") /\
  om (snd (unmount Sample.busy s1)) = om s1 /\
  length (trace (env (snd (unmount Sample.busy (snd (unmount Sample.busy s1)))))) = 3.
Proof.
  cbn zeta.
  destruct (failed_unmount_keeps_stack Sample.busy
              (snd (mount_pkg_cache Sample.busy project))
              (set_mountpoint Sample.MNT (pkg_cache_stack (om project) Sample.BASE))
              (ExternalError "umount: target is busy") eq_refl eq_refl)
    as (Hout & Hom & _ & Hlater).
  split; [exact Hout|]. split; [exact Hom|].
  destruct (Hlater _ eq_refl) as [_ Htrace].
  rewrite Htrace. reflexivity.
Defined.

(** ** Preconditions on the state of the manager *)

(** C7.  Every operation whose precondition on the state of the manager
    is violated raises [RuntimeError] (the spec's IllegalState) and
    changes nothing: [mount_layer] and [mount_pkg_cache] without a base
    layer, for every part and flag; [refresh_packages_list],
    [download_packages] and [install_packages] without a recorded stack,
    for every list of package names. *)
Theorem precondition_violations (ext : Collaborators) (s : State) :
  (_base_layer_dir (om s) = None ->
   (forall part pkg_cache,
      mount_layer ext part pkg_cache s =
        (Raise (RuntimeError "request to mount overlay without a base layer"), s)) /\
   mount_pkg_cache ext s =
     (Raise (RuntimeError
               "request to mount the overlay package cache without a base layer"), s)) /\
  (_overlay_fs (om s) = None ->
   refresh_packages_list ext s =
     (Raise (RuntimeError "overlay filesystem not mounted"), s) /\
   (forall package_names,
      download_packages ext package_names s =
        (Raise (RuntimeError "overlay filesystem not mounted"), s)) /\
   (forall package_names,
      install_packages ext package_names s =
        (Raise (RuntimeError "overlay filesystem not mounted"), s))).
Proof.
  split.
  - intros Hbase. split.
    + intros part pkg_cache. unfold mount_layer, bind, get_self.
      rewrite Hbase. reflexivity.
    + unfold mount_pkg_cache, bind, get_self. rewrite Hbase. reflexivity.
  - intros Hfs. repeat split.
    + unfold refresh_packages_list, bind, get_self. rewrite Hfs. reflexivity.
    + intros names. unfold download_packages, bind, get_self.
      rewrite Hfs. reflexivity.
    + intros names. unfold install_packages, bind, get_self.
      rewrite Hfs. reflexivity.
Qed.

Lemma precondition_violations_witness :
  let s := Sample.start [Sample.A] None in
  mount_layer Sample.quiet Sample.A true s =
    (Raise (RuntimeError "request to mount overlay without a base layer"), s) /\
  mount_pkg_cache Sample.quiet s =
    (Raise (RuntimeError
              "request to mount the overlay package cache without a base layer"), s) /\
  install_packages Sample.quiet ["hello"] s =
    (Raise (RuntimeError "overlay filesystem not mounted"), s).
Proof.
  cbn zeta.
  destruct (precondition_violations Sample.quiet (Sample.start [Sample.A] None))
    as [Hmount Hpkg].
  destruct (Hmount eq_refl) as [Hlayer Hcache].
  destruct (Hpkg eq_refl) as (_ & _ & Hinstall).
  split; [apply Hlayer|]. split; [exact Hcache | apply Hinstall].
Defined.

(** ** Package operations and [SystemExit] *)

Lemma suppress_SystemExit_run (body : M unit) (s : State) :
  suppress_SystemExit body s = discard_SystemExit (body s).
Proof.
  unfold suppress_SystemExit, with_stmt, suppress_SystemExit__exit__, ret,
    discard_SystemExit.
  destruct (body s) as [[[]|e] s']; [reflexivity|].
  destruct e; reflexivity.
Qed.

Lemma discard_SystemExit_never_exits r :
  fst (discard_SystemExit r) <> Raise SystemExit.
Proof.
  destruct r as [[[]|e] s']; [discriminate|].
  destruct e; discriminate.
Qed.

(** C8.  With a stack recorded, each package operation has the outcome
    of its block inside [pychroot.Chroot(mount_dir)], except that a
    [SystemExit] coming out of that block is caught and discarded: the
    operation then returns normally.  No package operation ever raises
    [SystemExit]; every other exception of the block comes out unchanged.
    The suppression covers these blocks only: a [SystemExit] raised by the
    union-mount primitive comes out of [unmount] and of
    [mount_pkg_cache]. *)
Theorem system_exit_suppressed
    (ext : Collaborators) (s : State) (fs : OverlayFS) :
  _overlay_fs (om s) = Some fs ->
  let mount_dir := overlay_mount_dir (_project_info (om s)) in
  refresh_packages_list ext s =
    discard_SystemExit
      (Chroot ext mount_dir (lift_world (repo_refresh_packages_list ext)) s) /\
  (forall package_names,
     download_packages ext package_names s =
       discard_SystemExit
         (Chroot ext mount_dir
            (lift_world (repo_download_packages ext package_names)) s)) /\
  (forall package_names,
     install_packages ext package_names s =
       discard_SystemExit
         (Chroot ext mount_dir (install_block ext package_names) s)) /\
  fst (refresh_packages_list ext s) <> Raise SystemExit /\
  (forall package_names,
     fst (download_packages ext package_names s) <> Raise SystemExit /\
     fst (install_packages ext package_names s) <> Raise SystemExit) /\
  (unmount_fault ext fs (env s) = Some SystemExit ->
   fst (unmount ext s) = Raise SystemExit) /\
  (forall base,
     _base_layer_dir (om s) = Some base ->
     mount_fault ext (pkg_cache_stack (om s) base) mount_dir (env s) =
       Some SystemExit ->
     fst (mount_pkg_cache ext s) = Raise SystemExit).
Proof.
  intros Hfs. cbn zeta.
  assert (Hrefresh : refresh_packages_list ext s =
            discard_SystemExit
              (Chroot ext (overlay_mount_dir (_project_info (om s)))
                 (lift_world (repo_refresh_packages_list ext)) s)).
  { unfold refresh_packages_list, bind, get_self. rewrite Hfs.
    apply suppress_SystemExit_run. }
  assert (Hdownload : forall names, download_packages ext names s =
            discard_SystemExit
              (Chroot ext (overlay_mount_dir (_project_info (om s)))
                 (lift_world (repo_download_packages ext names)) s)).
  { intros names. unfold download_packages, bind, get_self. rewrite Hfs.
    apply suppress_SystemExit_run. }
  assert (Hinstall : forall names, install_packages ext names s =
            discard_SystemExit
              (Chroot ext (overlay_mount_dir (_project_info (om s)))
                 (install_block ext names) s)).
  { intros names. unfold install_packages, bind at 1, get_self. rewrite Hfs.
    apply suppress_SystemExit_run. }
  split; [exact Hrefresh|]. split; [exact Hdownload|]. split; [exact Hinstall|].
  split; [rewrite Hrefresh; apply discard_SystemExit_never_exits|].
  split.
  - intros names. rewrite Hdownload, Hinstall.
    split; apply discard_SystemExit_never_exits.
  - split.
    + intros Hfault. rewrite (unmount_run ext s fs Hfs), Hfault. reflexivity.
    + intros base Hbase Hfault.
      rewrite (mount_pkg_cache_run ext s base Hbase). cbn zeta.
      rewrite Hfault. reflexivity.
Qed.

(** A repository that leaves through [SystemExit]: the three operations
    return normally. *)
Lemma system_exit_suppressed_witness :
  fst (refresh_packages_list Sample.leaving mounted_cache) = Return tt /\
  fst (download_packages Sample.leaving ["hello"] mounted_cache) = Return tt /\
  fst (install_packages Sample.leaving ["hello"] mounted_cache) = Return tt.
Proof.
  destruct (system_exit_suppressed Sample.leaving mounted_cache
              (set_mountpoint Sample.MNT
                 (pkg_cache_stack (om mounted_cache) Sample.BASE)) eq_refl)
    as (Hrefresh & Hdownload & Hinstall & _).
  rewrite Hrefresh, Hdownload, Hinstall.
  repeat split.
Defined.

(** ** The resolver configuration fix-up *)

Lemma strip_prefix_app (pre rest : Path) : strip_prefix pre (pre ++ rest) = Some rest.
Proof.
  induction pre as [|c pre IH]; simpl; [reflexivity|].
  destruct (decide (c = c)); [exact IH | congruence].
Qed.

Lemma mtab_fs_remove w p : mtab (fs_remove w p) = mtab w.
Proof.
  unfold fs_remove.
  destruct (find_mount (mtab w) p) as [[m rel]|]; [|reflexivity].
  destruct (visible _); reflexivity.
Qed.

Lemma mtab_fs_create w p n : mtab (fs_create w p n) = mtab w.
Proof.
  unfold fs_create.
  destruct (find_mount (mtab w) p) as [[m rel]|]; reflexivity.
Qed.

(** A removed entry is gone from the view. *)
Lemma lstat_fs_remove w p : lstat (fs_remove w p) p = None.
Proof.
  unfold lstat. rewrite mtab_fs_remove. unfold fs_remove.
  destruct (find_mount (mtab w) p) as [[m rel]|] eqn:Hm.
  - destruct (visible (layer_lookup (delete (mnt_upper m ++ rel) (files w))
                         (mnt_lower m) rel)) eqn:Hlow; cbn.
    + rewrite lookup_insert_eq. reflexivity.
    + rewrite lookup_delete_eq. exact Hlow.
  - cbn. apply lookup_delete_eq.
Qed.

(** A created entry is the one seen. *)
Lemma lstat_fs_create w p n :
  n <> Whiteout -> lstat (fs_create w p n) p = Some n.
Proof.
  intros Hn. unfold lstat. rewrite mtab_fs_create. unfold fs_create.
  destruct (find_mount (mtab w) p) as [[m rel]|] eqn:Hm; cbn.
  - rewrite lookup_insert_eq. destruct n; [reflexivity..|contradiction].
  - apply lookup_insert_eq.
Qed.

(** Replacing an entry through a mount writes to its upper directory and
    nowhere else. *)
Lemma files_replace_under_mount w p m rel n :
  find_mount (mtab w) p = Some (m, rel) ->
  files (fs_create (fs_remove w p) p n) = <[mnt_upper m ++ rel := n]> (files w).
Proof.
  intros Hm. unfold fs_create. rewrite mtab_fs_remove, Hm.
  unfold fs_remove. rewrite Hm.
  destruct (visible _); cbn.
  - rewrite insert_insert_eq. apply insert_delete_eq.
  - apply insert_delete_eq.
Qed.

(** What [fix_resolv_conf] does when the file is a symbolic link. *)
Lemma fix_resolv_conf_symlink s target :
  lstat (env s) (resolv_conf (om s)) = Some (Symlink target) ->
  fix_resolv_conf s =
    (Return tt,
     set_env (fs_create (fs_remove (env s) (resolv_conf (om s)))
                (resolv_conf (om s)) (Regular "")) s).
Proof.
  intros Hlink.
  unfold fix_resolv_conf, bind, get_self, Path_is_symlink.
  fold (resolv_conf (om s)). rewrite Hlink.
  unfold Path_unlink. rewrite Hlink.
  unfold Path_touch. cbn [env set_env].
  rewrite lstat_fs_remove. reflexivity.
Qed.

Lemma fix_resolv_conf_other s :
  (forall target, lstat (env s) (resolv_conf (om s)) <> Some (Symlink target)) ->
  fix_resolv_conf s = (Return tt, s).
Proof.
  intros Hother.
  unfold fix_resolv_conf, bind, get_self, Path_is_symlink.
  fold (resolv_conf (om s)).
  destruct (lstat (env s) (resolv_conf (om s))) as [[]|] eqn:Hst;
    try reflexivity.
  exfalso. eapply Hother. reflexivity.
Qed.

(** C9.  After [fix_resolv_conf]: when [etc/resolv.conf] under the mount
    directory was a symbolic link, the link has been removed and an empty
    regular file is in its place; when it was a regular file, or absent
    (or anything but a symbolic link), nothing has changed. *)
Theorem fix_resolv_conf_effect (s : State) :
  let resolv := overlay_mount_dir (_project_info (om s)) /: "etc" /: "resolv.conf" in
  (forall target,
     lstat (env s) resolv = Some (Symlink target) ->
     exists s',
       fix_resolv_conf s = (Return tt, s') /\
       lstat (env s') resolv = Some (Regular "") /\
       om s' = om s) /\
  (forall content,
     lstat (env s) resolv = Some (Regular content) ->
     fix_resolv_conf s = (Return tt, s)) /\
  (lstat (env s) resolv = None -> fix_resolv_conf s = (Return tt, s)) /\
  ((forall target, lstat (env s) resolv <> Some (Symlink target)) ->
   fix_resolv_conf s = (Return tt, s)).
Proof.
  cbn zeta. fold (resolv_conf (om s)). repeat split.
  - intros target Hlink. eexists.
    split; [apply (fix_resolv_conf_symlink s target Hlink)|].
    split; [|reflexivity].
    cbn [env set_env]. apply lstat_fs_create. discriminate.
  - intros content Hreg. apply fix_resolv_conf_other.
    intros target. rewrite Hreg. discriminate.
  - intros Habsent. apply fix_resolv_conf_other.
    intros target. rewrite Habsent. discriminate.
  - apply fix_resolv_conf_other.
Qed.

(** Through the mounted package cache the link of the base image is
    replaced by an empty file; a second run changes nothing. *)
Lemma fix_resolv_conf_effect_witness :
  lstat (env mounted_cache) (Sample.MNT /: "etc" /: "resolv.conf") =
    Some (Symlink "/run/systemd/resolve/stub-resolv.conf") /\
  exists s',
    fix_resolv_conf mounted_cache = (Return tt, s') /\
    lstat (env s') (Sample.MNT /: "etc" /: "resolv.conf") = Some (Regular "") /\
    fix_resolv_conf s' = (Return tt, s').
Proof.
  split; [vm_compute; reflexivity|].
  destruct (fix_resolv_conf_effect mounted_cache) as [Hlink _].
  destruct (Hlink "/run/systemd/resolve/stub-resolv.conf") as (s' & Hrun & Hst & Hom).
  { vm_compute. reflexivity. }
  exists s'. split; [exact Hrun|]. split; [exact Hst|].
  destruct (fix_resolv_conf_effect s') as (_ & Hreg & _).
  apply (Hreg ""). rewrite Hom. exact Hst.
Defined.

(** *** Where the fix-up writes *)

Lemma mount_layer_run ext s base part pkg_cache i upper :
  _base_layer_dir (om s) = Some base ->
  list_index part (_part_list (om s)) = Some i ->
  _layer_dirs (om s) !! i = Some upper ->
  let fs := layer_stack (om s) base pkg_cache i upper in
  let target := overlay_mount_dir (_project_info (om s)) in
  let w1 := log_event (EvMount (lower_dirs fs) upper (work_dir fs) target) (env s) in
  mount_layer ext part pkg_cache s =
    match mount_fault ext fs target (env s) with
    | Some e => (Raise e, {| om := set_overlay_fs (Some fs) (om s); env := w1 |})
    | None =>
      (Return tt,
       {| om := set_overlay_fs (Some (set_mountpoint target fs)) (om s);
          env := set_mtab (mount_of fs target :: mtab (env s)) w1 |})
    end.
Proof.
  intros Hbase Hindex Hupper. cbn zeta.
  unfold mount_layer, bind, get_self. rewrite Hbase, Hindex, Hupper.
  unfold put_overlay_fs, overlay_fs_mount, bind, lift_world, OverlayFS_mount.
  cbn [env om set_om set_env].
  unfold layer_stack.
  destruct pkg_cache; cbn [app]; destruct (mount_fault ext _ _ _); reflexivity.
Qed.


(** C6 does not hold of the code.  A project with the single part A, a
    base image whose [etc/resolv.conf] is a symbolic link and an empty
    package cache: after [with LayerMount(overlay_manager, A): pass], with
    the package cache layer mounted or not, the empty file that replaced
    the link lies in the layer directory of part A, where nothing was
    before, and the package cache directory holds no such file. *)
Theorem resolv_fix_reaches_part_layer :
  let s0 := Sample.start [Sample.A] (Some Sample.BASE) in
  let resolv := ["etc"; "resolv.conf"] in
  files (env s0) !! (Sample.LA ++ resolv) = None /\
  (forall pkg_cache,
     let out := LayerMount.scope Sample.quiet Sample.A pkg_cache
                  (fun _ => ret tt) s0 in
     fst out = Return tt /\
     files (env (snd out)) !! (Sample.LA ++ resolv) = Some (Regular "") /\
     files (env (snd out)) !! (Sample.CACHE ++ resolv) = None /\
     trace (env (snd out)) =
       [ EvUnmount
           {| lower_dirs := if pkg_cache then [Sample.CACHE; Sample.BASE]
                            else [Sample.BASE];
              upper_dir := Sample.LA;
              work_dir := Sample.WORK;
              mountpoint := Some Sample.MNT |};
         EvMount (if pkg_cache then [Sample.CACHE; Sample.BASE] else [Sample.BASE])
           Sample.LA Sample.WORK Sample.MNT ]).
Proof.
  cbn zeta. split; [vm_compute; reflexivity|].
  intros [|]; repeat split; vm_compute; reflexivity.
Qed.

(** * Further properties of the manager *)

(** ** The shape of the stack *)

Lemma list_index_None {A} `{EqDecision A} (x : A) (l : list A) :
  x ∉ l -> list_index x l = None.
Proof.
  induction l as [|y l IH]; intros Hnot; simpl; [reflexivity|].
  apply not_elem_of_cons in Hnot as [Hne Hnot].
  destruct (decide (y = x)); [congruence|].
  rewrite (IH Hnot). reflexivity.
Qed.

(** The call [mount_layer] makes for the part found at position [i]. *)
Lemma mount_layer_call ext s base part pkg_cache i upper :
  _base_layer_dir (om s) = Some base ->
  list_index part (_part_list (om s)) = Some i ->
  _layer_dirs (om s) !! i = Some upper ->
  trace (env (snd (mount_layer ext part pkg_cache s))) =
    EvMount (lower_dirs (layer_stack (om s) base pkg_cache i upper)) upper
      (overlay_work_dir (_project_info (om s)))
      (overlay_mount_dir (_project_info (om s)))
    :: trace (env s).
Proof.
  intros Hbase Hindex Hupper.
  rewrite (mount_layer_run ext s base part pkg_cache i upper Hbase Hindex Hupper).
  cbn zeta. destruct (mount_fault ext _ _ _); reflexivity.
Qed.

Lemma layer_dir_at (self : OverlayManager) (part : Part) (i : nat) :
  layers_of_parts self ->
  _part_list self !! i = Some part ->
  _layer_dirs self !! i = Some (part_layer_dir part).
Proof.
  intros Hlayers Hat. rewrite Hlayers, list_lookup_fmap, Hat. reflexivity.
Qed.

(** [mount_layer] for a part that is not in the part list raises
    [ValueError] (from [list.index]) before anything is recorded or
    mounted. *)
Theorem mount_layer_unknown_part
    (ext : Collaborators) (s : State) (base : Path) (part : Part)
    (pkg_cache : bool) :
  _base_layer_dir (om s) = Some base ->
  part ∉ _part_list (om s) ->
  mount_layer ext part pkg_cache s = (Raise (ValueError "part is not in list"), s).
Proof.
  intros Hbase Hnot. unfold mount_layer, bind, get_self.
  rewrite Hbase, (list_index_None _ _ Hnot). reflexivity.
Qed.

Lemma mount_layer_unknown_part_witness :
  mount_layer Sample.quiet Sample.C true
    (Sample.start [Sample.A; Sample.B] (Some Sample.BASE)) =
  (Raise (ValueError "part is not in list"),
   Sample.start [Sample.A; Sample.B] (Some Sample.BASE)).
Proof.
  apply (mount_layer_unknown_part Sample.quiet _ Sample.BASE); [reflexivity|].
  intros Hin. apply elem_of_cons in Hin as [Heq|Hin]; [discriminate|].
  apply elem_of_cons in Hin as [Heq|Hin]; [discriminate|].
  inversion Hin.
Defined.

(** When the parts of the list are pairwise distinct, [mount_layer] for
    the part at any position [i] calls the union-mount primitive with the
    lower directories [reverse ([base] ++ [cache, if requested] ++
    layer_dirs[0..i))] and the layer directory of the part as upper
    directory. *)
Theorem mount_layer_distinct_parts
    (ext : Collaborators) (s : State) (base : Path) (pkg_cache : bool)
    (part : Part) (i : nat) :
  _base_layer_dir (om s) = Some base ->
  layers_of_parts (om s) ->
  NoDup (_part_list (om s)) ->
  _part_list (om s) !! i = Some part ->
  trace (env (snd (mount_layer ext part pkg_cache s))) =
    EvMount
      (reverse ([base]
                ++ (if pkg_cache
                    then [overlay_packages_dir (_project_info (om s))]
                    else [])
                ++ take i (_layer_dirs (om s))))
      (part_layer_dir part)
      (overlay_work_dir (_project_info (om s)))
      (overlay_mount_dir (_project_info (om s)))
    :: trace (env s).
Proof.
  intros Hbase Hlayers Hnd Hat.
  rewrite (mount_layer_call ext s base part pkg_cache i (part_layer_dir part)
             Hbase (list_index_NoDup _ _ _ Hnd Hat) (layer_dir_at _ _ _ Hlayers Hat)).
  unfold layer_stack, OverlayFS__init__. cbn [lower_dirs].
  rewrite <- app_assoc. reflexivity.
Qed.

Lemma Sample_parts_distinct : NoDup [Sample.A; Sample.B; Sample.C].
Proof.
  apply NoDup_cons. split.
  - intros Hin. apply elem_of_cons in Hin as [Heq|Hin]; [discriminate|].
    apply elem_of_cons in Hin as [Heq|Hin]; [discriminate|]. inversion Hin.
  - apply NoDup_cons. split.
    + intros Hin. apply elem_of_cons in Hin as [Heq|Hin]; [discriminate|].
      inversion Hin.
    + apply NoDup_cons. split; [intros Hin; inversion Hin | apply NoDup_nil_2].
Defined.

Lemma mount_layer_distinct_parts_witness :
  trace (env (snd (mount_layer Sample.quiet Sample.B true project))) =
  [EvMount [Sample.LA; Sample.CACHE; Sample.BASE] Sample.LB Sample.WORK Sample.MNT].
Proof.
  exact (mount_layer_distinct_parts Sample.quiet project Sample.BASE true Sample.B 1
           eq_refl eq_refl Sample_parts_distinct eq_refl).
Defined.

(** The stacks of consecutive parts are nested: with distinct parts, the
    lower directories handed over for the part at position [i + 1] are the
    layer directory of the part at position [i] on top of the lower
    directories handed over for that part. *)
Theorem mount_layer_stacks_nest
    (ext : Collaborators) (s : State) (base : Path) (pkg_cache : bool)
    (part next : Part) (i : nat) :
  _base_layer_dir (om s) = Some base ->
  layers_of_parts (om s) ->
  NoDup (_part_list (om s)) ->
  _part_list (om s) !! i = Some part ->
  _part_list (om s) !! S i = Some next ->
  exists lowers,
    trace (env (snd (mount_layer ext part pkg_cache s))) =
      EvMount lowers (part_layer_dir part)
        (overlay_work_dir (_project_info (om s)))
        (overlay_mount_dir (_project_info (om s)))
      :: trace (env s) /\
    trace (env (snd (mount_layer ext next pkg_cache s))) =
      EvMount (part_layer_dir part :: lowers) (part_layer_dir next)
        (overlay_work_dir (_project_info (om s)))
        (overlay_mount_dir (_project_info (om s)))
      :: trace (env s).
Proof.
  intros Hbase Hlayers Hnd Hat Hnext.
  eexists. split.
  - apply (mount_layer_call ext s base part pkg_cache i (part_layer_dir part)
             Hbase (list_index_NoDup _ _ _ Hnd Hat) (layer_dir_at _ _ _ Hlayers Hat)).
  - rewrite (mount_layer_call ext s base next pkg_cache (S i) (part_layer_dir next)
               Hbase (list_index_NoDup _ _ _ Hnd Hnext)
               (layer_dir_at _ _ _ Hlayers Hnext)).
    unfold layer_stack, OverlayFS__init__. cbn [lower_dirs].
    rewrite (take_S_r _ _ _ (layer_dir_at _ _ _ Hlayers Hat)).
    rewrite app_assoc, reverse_snoc. reflexivity.
Qed.

Lemma mount_layer_stacks_nest_witness :
  exists lowers,
    trace (env (snd (mount_layer Sample.quiet Sample.B false project))) =
      [EvMount lowers Sample.LB Sample.WORK Sample.MNT] /\
    trace (env (snd (mount_layer Sample.quiet Sample.C false project))) =
      [EvMount (Sample.LB :: lowers) Sample.LC Sample.WORK Sample.MNT].
Proof.
  exact (mount_layer_stacks_nest Sample.quiet project Sample.BASE false
           Sample.B Sample.C 1 eq_refl eq_refl Sample_parts_distinct
           eq_refl eq_refl).
Defined.

(** The base layer is always the lowest directory of the stack, the
    package cache, when requested, lies directly above it, and above them
    come the layers of the [i] parts that precede the target, the nearest
    one on top. *)
Theorem mount_layer_base_is_lowest
    (ext : Collaborators) (s : State) (base : Path) (pkg_cache : bool)
    (part : Part) (i : nat) (fs : OverlayFS) :
  _base_layer_dir (om s) = Some base ->
  layers_of_parts (om s) ->
  list_index part (_part_list (om s)) = Some i ->
  _overlay_fs (om (snd (mount_layer ext part pkg_cache s))) = Some fs ->
  lower_dirs fs =
    reverse (take i (_layer_dirs (om s))) ++ bottom_layers (om s) base pkg_cache /\
  last (lower_dirs fs) = Some base /\
  length (lower_dirs fs) = i + length (bottom_layers (om s) base pkg_cache) /\
  upper_dir fs = part_layer_dir part.
Proof.
  intros Hbase Hlayers Hindex Hfs.
  destruct (list_index_found _ _ _ Hindex) as [Hat _].
  pose proof (layer_dir_at _ _ _ Hlayers Hat) as Hupper.
  rewrite (mount_layer_run ext s base part pkg_cache i _ Hbase Hindex Hupper)
    in Hfs.
  cbn zeta in Hfs.
  assert (Hshape : lower_dirs fs =
            lower_dirs (layer_stack (om s) base pkg_cache i (part_layer_dir part))
          /\ upper_dir fs = part_layer_dir part).
  { destruct (mount_fault ext _ _ _); cbn in Hfs; injection Hfs as <-;
      split; reflexivity. }
  destruct Hshape as [Hlow Hup].
  assert (Hrev : lower_dirs fs =
            reverse (take i (_layer_dirs (om s))) ++ bottom_layers (om s) base pkg_cache).
  { rewrite Hlow. unfold layer_stack, OverlayFS__init__, bottom_layers.
    cbn [lower_dirs]. rewrite reverse_app. destruct pkg_cache; reflexivity. }
  split; [exact Hrev|]. split; [|split; [|exact Hup]].
  - rewrite Hrev, last_app. unfold bottom_layers.
    destruct pkg_cache; reflexivity.
  - rewrite Hrev, length_app, length_reverse, length_take.
    apply lookup_lt_Some in Hupper. lia.
Qed.

Lemma mount_layer_base_is_lowest_witness :
  exists fs,
    _overlay_fs (om (snd (mount_layer Sample.quiet Sample.C true project))) = Some fs /\
    lower_dirs fs = [Sample.LB; Sample.LA; Sample.CACHE; Sample.BASE] /\
    last (lower_dirs fs) = Some Sample.BASE /\
    length (lower_dirs fs) = 4.
Proof.
  eexists. split; [reflexivity|].
  destruct (mount_layer_base_is_lowest Sample.quiet project Sample.BASE true
              Sample.C 2 _ eq_refl eq_refl eq_refl eq_refl)
    as (Hlow & Hlast & Hlen & _).
  split; [exact Hlow|]. split; [exact Hlast | exact Hlen].
Defined.

(** With pairwise distinct layer directories that differ from the base
    layer and from the package cache directory, the upper directory of the
    stack is never one of its lower directories. *)
Theorem mount_layer_upper_not_lower
    (ext : Collaborators) (s : State) (base : Path) (pkg_cache : bool)
    (part : Part) (i : nat) (fs : OverlayFS) :
  _base_layer_dir (om s) = Some base ->
  layers_of_parts (om s) ->
  list_index part (_part_list (om s)) = Some i ->
  NoDup (_layer_dirs (om s)) ->
  part_layer_dir part <> base ->
  part_layer_dir part <> overlay_packages_dir (_project_info (om s)) ->
  _overlay_fs (om (snd (mount_layer ext part pkg_cache s))) = Some fs ->
  upper_dir fs ∉ lower_dirs fs.
Proof.
  intros Hbase Hlayers Hindex Hnd Hnb Hnc Hfs.
  destruct (list_index_found _ _ _ Hindex) as [Hat _].
  pose proof (layer_dir_at _ _ _ Hlayers Hat) as Hupper.
  rewrite (mount_layer_run ext s base part pkg_cache i _ Hbase Hindex Hupper)
    in Hfs.
  cbn zeta in Hfs.
  assert (Hshape : lower_dirs fs =
            lower_dirs (layer_stack (om s) base pkg_cache i (part_layer_dir part))
          /\ upper_dir fs = part_layer_dir part).
  { destruct (mount_fault ext _ _ _); cbn in Hfs; injection Hfs as <-;
      split; reflexivity. }
  destruct Hshape as [-> ->].
  unfold layer_stack, OverlayFS__init__. cbn [lower_dirs].
  rewrite elem_of_reverse, elem_of_app. intros [Hbot|Htake].
  - destruct pkg_cache.
    + apply elem_of_cons in Hbot as [Heq|Hbot]; [contradiction|].
      apply list_elem_of_singleton in Hbot. contradiction.
    + apply elem_of_app in Hbot as [Hbot|Hbot]; [|inversion Hbot].
      apply list_elem_of_singleton in Hbot. contradiction.
  - apply elem_of_take in Htake as (j & Hj & Hlt).
    pose proof (NoDup_lookup _ _ _ _ Hnd Hj Hupper). lia.
Qed.

Lemma mount_layer_upper_not_lower_witness :
  Sample.LC ∉ [Sample.LB; Sample.LA; Sample.CACHE; Sample.BASE].
Proof.
  apply (mount_layer_upper_not_lower Sample.quiet project Sample.BASE true
           Sample.C 2
           (set_mountpoint Sample.MNT
              (layer_stack (om project) Sample.BASE true 2 Sample.LC))
           eq_refl eq_refl eq_refl); try discriminate; [|reflexivity].
  apply NoDup_cons. split.
  - intros Hin. apply elem_of_cons in Hin as [Heq|Hin]; [discriminate|].
    apply elem_of_cons in Hin as [Heq|Hin]; [discriminate|]. inversion Hin.
  - apply NoDup_cons. split.
    + intros Hin. apply elem_of_cons in Hin as [Heq|Hin]; [discriminate|].
      inversion Hin.
    + apply NoDup_cons. split; [intros Hin; inversion Hin | apply NoDup_nil_2].
Defined.

(** ** Mount and unmount together *)

Lemma drop_mount_latest (fs : OverlayFS) (target : Path) (t : list Mount) :
  drop_mount target (mount_of fs target :: t) = t.
Proof.
  simpl. destruct (decide (target = target)); [reflexivity | congruence].
Qed.

(** A mount operation that returned has mounted one stack. *)
Lemma mounted_from_shape ext s0 s1 :
  mounted_from ext s0 s1 -> exists fs0, s1 = after_mount fs0 s0.
Proof.
  intros [(part & pkg_cache & Hrun)|Hrun].
  - destruct (_base_layer_dir (om s0)) as [base|] eqn:Hbase;
      [|unfold mount_layer, bind, get_self in Hrun; rewrite Hbase in Hrun;
        discriminate].
    destruct (list_index part (_part_list (om s0))) as [i|] eqn:Hindex;
      [|unfold mount_layer, bind, get_self in Hrun;
        rewrite Hbase, Hindex in Hrun; discriminate].
    destruct (_layer_dirs (om s0) !! i) as [upper|] eqn:Hupper;
      [|unfold mount_layer, bind, get_self in Hrun;
        rewrite Hbase, Hindex, Hupper in Hrun; discriminate].
    rewrite (mount_layer_run ext s0 base part pkg_cache i upper Hbase Hindex Hupper)
      in Hrun.
    cbn zeta in Hrun.
    destruct (mount_fault ext _ _ _); [discriminate|].
    injection Hrun as <-.
    exists (layer_stack (om s0) base pkg_cache i upper). reflexivity.
  - destruct (_base_layer_dir (om s0)) as [base|] eqn:Hbase;
      [|unfold mount_pkg_cache, bind, get_self in Hrun; rewrite Hbase in Hrun;
        discriminate].
    rewrite (mount_pkg_cache_run ext s0 base Hbase) in Hrun.
    cbn zeta in Hrun.
    destruct (mount_fault ext _ _ _); [discriminate|].
    injection Hrun as <-.
    exists (pkg_cache_stack (om s0) base). reflexivity.
Qed.



(** A mount operation whose union-mount call fails still records the
    stack it built: the error comes out, nothing is mounted, and the
    manager holds a stack that was never mounted.  An [unmount()] that
    follows passes the check of the record and asks the primitive to
    unmount that stack. *)
Theorem failed_mount_records_stack
    (ext : Collaborators) (s : State) (base : Path) (part : Part)
    (pkg_cache : bool) (i : nat) (upper : Path) (e : Exn) :
  _base_layer_dir (om s) = Some base ->
  list_index part (_part_list (om s)) = Some i ->
  _layer_dirs (om s) !! i = Some upper ->
  let fs := layer_stack (om s) base pkg_cache i upper in
  mount_fault ext fs (overlay_mount_dir (_project_info (om s))) (env s) = Some e ->
  let s1 := snd (mount_layer ext part pkg_cache s) in
  fst (mount_layer ext part pkg_cache s) = Raise e /\
  _overlay_fs (om s1) = Some fs /\
  mountpoint fs = None /\
  mtab (env s1) = mtab (env s) /\
  fst (unmount ext s1) =
    match unmount_fault ext fs (env s1) with
    | Some e' => Raise e'
    | None => Return tt
    end /\
  trace (env (snd (unmount ext s1))) = EvUnmount fs :: trace (env s1).
Proof.
  intros Hbase Hindex Hupper fs Hfault s1.
  assert (Hrun : mount_layer ext part pkg_cache s =
            (Raise e,
             {| om := set_overlay_fs (Some fs) (om s);
                env := log_event
                         (EvMount (lower_dirs fs) upper (work_dir fs)
                            (overlay_mount_dir (_project_info (om s))))
                         (env s) |})).
  { rewrite (mount_layer_run ext s base part pkg_cache i upper Hbase Hindex Hupper).
    cbn zeta. fold fs. rewrite Hfault. reflexivity. }
  unfold s1. rewrite Hrun. cbn [fst snd om env].
  split; [reflexivity|]. split; [reflexivity|]. split; [reflexivity|].
  split; [reflexivity|].
  set (s' := {| om := _; env := _ |}).
  assert (Hfs : _overlay_fs (om s') = Some fs) by reflexivity.
  split.
  - rewrite (unmount_run ext s' fs Hfs). subst s'. cbn [env].
    destruct (unmount_fault ext fs _); reflexivity.
  - apply unmount_reaches_primitive, Hfs.
Qed.

Lemma failed_mount_records_stack_witness :
  let s1 := snd (mount_layer refusing Sample.B true project) in
  fst (mount_layer refusing Sample.B true project) =
    Raise (ExternalError "mount: permission denied") /\
  is_Some (_overlay_fs (om s1)) /\
  mtab (env s1) = [] /\
  fst (unmount refusing s1) = Return tt /\
  length (trace (env (snd (unmount refusing s1)))) = 2.
Proof.
  cbn zeta.
  destruct (failed_mount_records_stack refusing project Sample.BASE Sample.B true 1
              Sample.LB (ExternalError "mount: permission denied")
              eq_refl eq_refl eq_refl eq_refl)
    as (Hout & Hfs & _ & Hmtab & Hun & Htrace).
  split; [exact Hout|]. split; [eexists; exact Hfs|]. split; [exact Hmtab|].
  split; [exact Hun|]. rewrite Htrace. reflexivity.
Defined.

(** Two mount operations in a row followed by one [unmount()], the
    union-mount primitive succeeding each time, leave the first mount
    in the mount table while the manager records no stack: a further
    [unmount()] raises [RuntimeError], so the manager cannot tear the
    first mount down. *)
Theorem second_mount_orphans_first
    (ext : Collaborators) (s0 s1 s2 s3 : State) :
  mounted_from ext s0 s1 ->
  mounted_from ext s1 s2 ->
  unmount ext s2 = (Return tt, s3) ->
  exists first,
    mtab (env s1) = first :: mtab (env s0) /\
    mtab (env s3) = first :: mtab (env s0) /\
    mnt_point first = overlay_mount_dir (_project_info (om s0)) /\
    _overlay_fs (om s3) = None /\
    unmount ext s3 = (Raise (RuntimeError "filesystem is not mounted"), s3).
Proof.
  intros Hfirst Hsecond Hun.
  destruct (mounted_from_shape ext s0 s1 Hfirst) as [fs0 ->].
  destruct (mounted_from_shape ext _ s2 Hsecond) as [fs1 ->].
  set (s2 := after_mount fs1 (after_mount fs0 s0)) in *.
  assert (Hfs : _overlay_fs (om s2) =
                  Some (set_mountpoint (overlay_mount_dir (_project_info (om s0))) fs1))
    by reflexivity.
  rewrite (unmount_run ext s2 _ Hfs) in Hun.
  destruct (unmount_fault ext _ (env s2)); [discriminate|].
  injection Hun as <-.
  exists (mount_of fs0 (overlay_mount_dir (_project_info (om s0)))).
  split; [reflexivity|].
  split.
  { cbn [mountpoint set_mountpoint env mtab set_mtab log_event s2 after_mount
         om set_overlay_fs _project_info].
    destruct (decide _); [reflexivity | congruence]. }
  split; [reflexivity|]. split; [reflexivity|].
  apply unmount_without_stack. reflexivity.
Qed.

Lemma second_mount_orphans_first_witness :
  let s2 := snd (mount_layer Sample.quiet Sample.A true mounted_cache) in
  let s3 := snd (unmount Sample.quiet s2) in
  length (mtab (env s3)) = 1 /\
  _overlay_fs (om s3) = None /\
  unmount Sample.quiet s3 = (Raise (RuntimeError "filesystem is not mounted"), s3).
Proof.
  cbn zeta.
  destruct (second_mount_orphans_first Sample.quiet project mounted_cache
              (snd (mount_layer Sample.quiet Sample.A true mounted_cache))
              (snd (unmount Sample.quiet
                      (snd (mount_layer Sample.quiet Sample.A true mounted_cache)))))
    as (first & _ & Hmtab & _ & Hnone & Hraise).
  - right. reflexivity.
  - left. exists Sample.A, true. reflexivity.
  - reflexivity.
  - split; [rewrite Hmtab; reflexivity|]. split; [exact Hnone | exact Hraise].
Defined.

(** ** What the operations leave alone *)

Lemma keeps_manager_ret {A} (a : A) : keeps_manager (ret a).
Proof. intros s. reflexivity. Qed.

Lemma keeps_manager_raise {A} (e : Exn) : keeps_manager (@raise A e).
Proof. intros s. reflexivity. Qed.

Lemma keeps_manager_bind {A B} (c : M A) (k : A -> M B) :
  keeps_manager c -> (forall a, keeps_manager (k a)) -> keeps_manager (bind c k).
Proof.
  intros Hc Hk s. unfold bind. specialize (Hc s).
  destruct (c s) as [[a|e] s1]; cbn in *; [|exact Hc].
  rewrite (Hk a s1). exact Hc.
Qed.

Lemma keeps_manager_lift_world {A} (f : World -> Outcome A * World) :
  keeps_manager (lift_world f).
Proof.
  intros s. unfold lift_world. destruct (f (env s)); reflexivity.
Qed.

Lemma keeps_manager_with_stmt {A} (cm_enter : M A)
    (cm_exit : option Exn -> M bool) (body : A -> M unit) :
  keeps_manager cm_enter ->
  (forall exc, keeps_manager (cm_exit exc)) ->
  (forall a, keeps_manager (body a)) ->
  keeps_manager (with_stmt cm_enter cm_exit body).
Proof.
  intros Henter Hexit Hbody s. unfold with_stmt.
  specialize (Henter s).
  destruct (cm_enter s) as [[a|e] s1]; cbn in *; [|exact Henter].
  specialize (Hbody a s1).
  destruct (body a s1) as [[[]|e] s2]; cbn in *.
  - specialize (Hexit None s2).
    destruct (cm_exit None s2) as [[b|e'] s3]; cbn in *; congruence.
  - specialize (Hexit (Some e) s2).
    destruct (cm_exit (Some e) s2) as [[[|]|e'] s3]; cbn in *; congruence.
Qed.

Lemma keeps_manager_for_each {A} (l : list A) (body : A -> M unit) :
  (forall x, keeps_manager (body x)) -> keeps_manager (for_each l body).
Proof.
  intros Hbody. induction l as [|x l IH]; simpl.
  - apply keeps_manager_ret.
  - apply keeps_manager_bind; [apply Hbody | intros _; exact IH].
Qed.

Lemma keeps_manager_mkdir_one q : keeps_manager (mkdir_one q).
Proof.
  intros s. unfold mkdir_one. destruct (lstat (env s) q) as [[]|]; reflexivity.
Qed.

Lemma keeps_manager_mkdir_each qs : keeps_manager (mkdir_each qs).
Proof.
  induction qs as [|q qs IH]; simpl.
  - apply keeps_manager_ret.
  - apply keeps_manager_bind; [apply keeps_manager_mkdir_one | intros _; exact IH].
Qed.

Lemma keeps_manager_mkdirs : keeps_manager mkdirs.
Proof.
  unfold mkdirs. apply keeps_manager_bind; [intros s; reflexivity|].
  intros self. apply keeps_manager_for_each.
  intros d. apply keeps_manager_mkdir_each.
Qed.

Lemma keeps_manager_fix_resolv_conf : keeps_manager fix_resolv_conf.
Proof.
  unfold fix_resolv_conf. apply keeps_manager_bind; [intros s; reflexivity|].
  intros self. apply keeps_manager_bind; [intros s; reflexivity|].
  intros [|]; [|apply keeps_manager_ret].
  apply keeps_manager_bind.
  - intros s. unfold Path_unlink. destruct (lstat (env s) _) as [[]|]; reflexivity.
  - intros _ s. unfold Path_touch. destruct (lstat (env s) _); reflexivity.
Qed.

Lemma keeps_manager_chroot_block ext root (body : M unit) :
  keeps_manager body -> keeps_manager (suppress_SystemExit (Chroot ext root body)).
Proof.
  intros Hbody. unfold suppress_SystemExit, Chroot.
  apply keeps_manager_with_stmt.
  - apply keeps_manager_ret.
  - intros exc. apply keeps_manager_ret.
  - intros _. apply keeps_manager_with_stmt.
    + apply keeps_manager_lift_world.
    + intros exc. apply keeps_manager_lift_world.
    + intros _. exact Hbody.
Qed.

Lemma keeps_manager_guarded (block : OverlayManager -> M unit) msg :
  (forall self, keeps_manager (block self)) ->
  keeps_manager
    (bind get_self
       (fun self =>
          match _overlay_fs self with
          | None => raise (RuntimeError msg)
          | Some _ => block self
          end)).
Proof.
  intros Hblock. apply keeps_manager_bind; [intros s; reflexivity|].
  intros self. destruct (_overlay_fs self); [apply Hblock | apply keeps_manager_raise].
Qed.

Lemma same_config_refl m : same_config m m.
Proof. repeat split. Qed.

Lemma same_config_record o m : same_config m (set_overlay_fs o m).
Proof. repeat split. Qed.

(** The configuration of a manager is fixed: [mount_layer],
    [mount_pkg_cache] and [unmount] change nothing of the manager but its
    active-stack record, whether they return or raise and whatever the
    collaborators do; [mkdirs], [fix_resolv_conf] and the three package
    operations do not change the manager at all.  In particular the layer
    directories stay those of the parts. *)
Theorem operations_keep_configuration (ext : Collaborators) (s : State) :
  (forall part pkg_cache,
     same_config (om s) (om (snd (mount_layer ext part pkg_cache s)))) /\
  same_config (om s) (om (snd (mount_pkg_cache ext s))) /\
  same_config (om s) (om (snd (unmount ext s))) /\
  om (snd (mkdirs s)) = om s /\
  om (snd (fix_resolv_conf s)) = om s /\
  om (snd (refresh_packages_list ext s)) = om s /\
  (forall package_names,
     om (snd (download_packages ext package_names s)) = om s /\
     om (snd (install_packages ext package_names s)) = om s) /\
  (layers_of_parts (om s) ->
   forall part pkg_cache,
     layers_of_parts (om (snd (mount_layer ext part pkg_cache s))) /\
     layers_of_parts (om (snd (mount_pkg_cache ext s))) /\
     layers_of_parts (om (snd (unmount ext s)))).
Proof.
  assert (Hlayer : forall part pkg_cache,
            same_config (om s) (om (snd (mount_layer ext part pkg_cache s)))).
  { intros part pkg_cache. unfold mount_layer, bind, get_self.
    destruct (_base_layer_dir (om s)); [|apply same_config_refl].
    destruct (list_index part (_part_list (om s))); [|apply same_config_refl].
    destruct (_layer_dirs (om s) !! n); [|apply same_config_refl].
    unfold put_overlay_fs, overlay_fs_mount, bind, lift_world, OverlayFS_mount.
    cbn [env om set_om set_env].
    destruct (mount_fault ext _ _ _); repeat split. }
  assert (Hcache : same_config (om s) (om (snd (mount_pkg_cache ext s)))).
  { unfold mount_pkg_cache, bind, get_self.
    destruct (_base_layer_dir (om s)); [|apply same_config_refl].
    unfold put_overlay_fs, overlay_fs_mount, bind, lift_world, OverlayFS_mount.
    cbn [env om set_om set_env].
    destruct (mount_fault ext _ _ _); repeat split. }
  assert (Hunmount : same_config (om s) (om (snd (unmount ext s)))).
  { unfold unmount, bind, get_self.
    destruct (_overlay_fs (om s)); [|apply same_config_refl].
    unfold lift_world, OverlayFS_unmount, put_overlay_fs.
    destruct (unmount_fault ext _ _); [repeat split|].
    destruct (mountpoint o); repeat split. }
  split; [exact Hlayer|]. split; [exact Hcache|]. split; [exact Hunmount|].
  split; [apply keeps_manager_mkdirs|].
  split; [apply keeps_manager_fix_resolv_conf|].
  split.
  { apply (keeps_manager_guarded
             (fun self => suppress_SystemExit
                (Chroot ext (overlay_mount_dir (_project_info self))
                   (lift_world (repo_refresh_packages_list ext))))).
    intros self. apply keeps_manager_chroot_block, keeps_manager_lift_world. }
  split.
  { intros names. split.
    - apply (keeps_manager_guarded
               (fun self => suppress_SystemExit
                  (Chroot ext (overlay_mount_dir (_project_info self))
                     (lift_world (repo_download_packages ext names))))).
      intros self. apply keeps_manager_chroot_block, keeps_manager_lift_world.
    - apply (keeps_manager_guarded
               (fun self => suppress_SystemExit
                  (Chroot ext (overlay_mount_dir (_project_info self))
                     (install_block ext names)))).
      intros self. apply keeps_manager_chroot_block.
      apply keeps_manager_bind; [apply keeps_manager_lift_world|].
      intros _. apply keeps_manager_lift_world. }
  intros Hlayers part pkg_cache.
  destruct (Hlayer part pkg_cache) as (_ & Hp1 & Hd1 & _).
  destruct Hcache as (_ & Hp2 & Hd2 & _).
  destruct Hunmount as (_ & Hp3 & Hd3 & _).
  unfold layers_of_parts in *.
  rewrite Hp1, Hd1, Hp2, Hd2, Hp3, Hd3. repeat split; exact Hlayers.
Qed.

Lemma operations_keep_configuration_witness :
  layers_of_parts (om (snd (mount_layer Sample.quiet Sample.B true project))) /\
  layers_of_parts (om (snd (unmount Sample.quiet mounted_cache))).
Proof.
  destruct (operations_keep_configuration Sample.quiet project)
    as (_ & _ & _ & _ & _ & _ & _ & Hkeep).
  destruct (Hkeep eq_refl Sample.B true) as (Hmount & _ & _).
  destruct (operations_keep_configuration Sample.quiet mounted_cache)
    as (_ & _ & _ & _ & _ & _ & _ & Hkeep').
  destruct (Hkeep' eq_refl Sample.B true) as (_ & _ & Hun).
  split; [exact Hmount | exact Hun].
Defined.

(** ** Creating the overlay directories *)

Lemma mkdir_each_app (qs rs : list Path) (s : State) :
  mkdir_each (qs ++ rs) s = bind (mkdir_each qs) (fun _ => mkdir_each rs) s.
Proof.
  revert s. induction qs as [|q qs IH]; intros s; simpl; [reflexivity|].
  unfold bind.
  destruct (mkdir_one q s) as [[[]|e] s1]; [|reflexivity].
  rewrite IH. reflexivity.
Qed.

Lemma for_each_mkdir_each (g : Path -> list Path) (ds : list Path) (s : State) :
  for_each ds (fun d => mkdir_each (g d)) s = mkdir_each (concat (map g ds)) s.
Proof.
  revert s. induction ds as [|d ds IH]; intros s; simpl; [reflexivity|].
  rewrite mkdir_each_app. unfold bind.
  destruct (mkdir_each (g d) s) as [[[]|e] s1]; [apply IH | reflexivity].
Qed.

Lemma mkdirs_flat (s : State) :
  mkdirs s = mkdir_each (directories_to_make (om s)) s.
Proof.
  unfold mkdirs, bind, get_self, directories_to_make, overlay_dirs,
    Path_mkdir_parents_exist_ok.
  apply (for_each_mkdir_each (ancestors_from [])).
Qed.

Lemma ancestors_from_last (pre p : Path) :
  p <> [] -> pre ++ p ∈ ancestors_from pre p.
Proof.
  revert pre. induction p as [|c p IH]; intros pre Hne; [congruence|].
  simpl. destruct p as [|c' p].
  - apply elem_of_cons. left. reflexivity.
  - apply elem_of_cons. right.
    replace (pre ++ c :: c' :: p) with ((pre ++ [c]) ++ c' :: p)
      by (rewrite <- app_assoc; reflexivity).
    apply IH. discriminate.
Qed.

Lemma fs_create_files w p n :
  exists k, files (fs_create w p n) = <[k := n]> (files w).
Proof.
  unfold fs_create.
  destruct (find_mount (mtab w) p) as [[m rel]|]; eexists; reflexivity.
Qed.

Lemma layer_lookup_insert_dir (f : gmap Path Node) (k : Path)
    (layers : list Path) (rel : Path) :
  visible (layer_lookup f layers rel) = Some Directory ->
  visible (layer_lookup (<[k := Directory]> f) layers rel) = Some Directory.
Proof.
  induction layers as [|d ds IH]; simpl; [discriminate|].
  destruct (decide (k = d ++ rel)) as [->|Hne].
  - rewrite lookup_insert_eq. reflexivity.
  - rewrite lookup_insert_ne by exact Hne.
    destruct (f !! (d ++ rel)); [trivial | exact IH].
Qed.

(** Creating a directory somewhere never makes a directory elsewhere
    stop being one. *)
Lemma lstat_dir_stable w p q :
  lstat w q = Some Directory ->
  lstat (fs_create w p Directory) q = Some Directory.
Proof.
  unfold lstat. rewrite mtab_fs_create.
  destruct (fs_create_files w p Directory) as [k ->].
  destruct (find_mount (mtab w) q) as [[m rel]|].
  - apply layer_lookup_insert_dir.
  - intros Hq. destruct (decide (k = q)) as [->|Hne].
    + apply lookup_insert_eq.
    + rewrite lookup_insert_ne by exact Hne. exact Hq.
Qed.

Lemma mkdir_one_stable p q s r s' :
  mkdir_one p s = (r, s') ->
  lstat (env s) q = Some Directory ->
  lstat (env s') q = Some Directory.
Proof.
  unfold mkdir_one. intros Hrun Hq.
  destruct (lstat (env s) p) as [[]|]; injection Hrun as <- <-;
    try exact Hq.
  cbn [env set_env]. apply lstat_dir_stable, Hq.
Qed.

Lemma mkdir_one_made p s s' :
  mkdir_one p s = (Return tt, s') -> lstat (env s') p = Some Directory.
Proof.
  unfold mkdir_one. intros Hrun.
  destruct (lstat (env s) p) as [[]|] eqn:Hp; try discriminate;
    injection Hrun as <-.
  - exact Hp.
  - cbn [env set_env]. apply lstat_fs_create. discriminate.
Qed.

Lemma mkdir_each_stable qs q s r s' :
  mkdir_each qs s = (r, s') ->
  lstat (env s) q = Some Directory ->
  lstat (env s') q = Some Directory.
Proof.
  revert s. induction qs as [|p qs IH]; intros s Hrun Hq; simpl in Hrun.
  - injection Hrun as <- <-. exact Hq.
  - unfold bind in Hrun.
    destruct (mkdir_one p s) as [[[]|e] s1] eqn:Hone.
    + apply (IH s1 Hrun). eapply mkdir_one_stable; eauto.
    + injection Hrun as <- <-. eapply mkdir_one_stable; eauto.
Qed.

Lemma mkdir_each_made qs s s' :
  mkdir_each qs s = (Return tt, s') ->
  forall q, q ∈ qs -> lstat (env s') q = Some Directory.
Proof.
  revert s. induction qs as [|p qs IH]; intros s Hrun q Hin; [inversion Hin|].
  simpl in Hrun. unfold bind in Hrun.
  destruct (mkdir_one p s) as [[[]|e] s1] eqn:Hone; [|discriminate].
  apply elem_of_cons in Hin as [->|Hin].
  - eapply mkdir_each_stable; [exact Hrun|]. eapply mkdir_one_made, Hone.
  - eapply IH; eauto.
Qed.

Lemma mkdir_each_nothing_to_do qs s :
  (forall q, q ∈ qs -> lstat (env s) q = Some Directory) ->
  mkdir_each qs s = (Return tt, s).
Proof.
  induction qs as [|p qs IH]; intros Hall; simpl; [reflexivity|].
  unfold bind, mkdir_one.
  rewrite (Hall p) by (apply elem_of_cons; left; reflexivity).
  apply IH. intros q Hq. apply Hall. apply elem_of_cons. right. exact Hq.
Qed.





(** ** More on the resolver fix-up *)

(** [fix_resolv_conf] always returns, in one of two states. *)
Lemma fix_resolv_conf_cases (s : State) :
  (exists target,
     lstat (env s) (resolv_conf (om s)) = Some (Symlink target) /\
     fix_resolv_conf s =
       (Return tt,
        set_env (fs_create (fs_remove (env s) (resolv_conf (om s)))
                   (resolv_conf (om s)) (Regular "")) s)) \/
  ((forall target, lstat (env s) (resolv_conf (om s)) <> Some (Symlink target)) /\
   fix_resolv_conf s = (Return tt, s)).
Proof.
  destruct (lstat (env s) (resolv_conf (om s))) as [n|] eqn:Hst.
  - destruct n as [c|target| |].
    + right. split; [discriminate|].
      apply fix_resolv_conf_other. intros t. rewrite Hst. discriminate.
    + left. exists target. split; [reflexivity|].
      apply (fix_resolv_conf_symlink s target Hst).
    + right. split; [discriminate|].
      apply fix_resolv_conf_other. intros t. rewrite Hst. discriminate.
    + right. split; [discriminate|].
      apply fix_resolv_conf_other. intros t. rewrite Hst. discriminate.
  - right. split; [discriminate|].
    apply fix_resolv_conf_other. intros t. rewrite Hst. discriminate.
Qed.

Lemma fix_resolv_conf_world (s : State) :
  fst (fix_resolv_conf s) = Return tt /\
  mtab (env (snd (fix_resolv_conf s))) = mtab (env s) /\
  pid (env (snd (fix_resolv_conf s))) = pid (env s) /\
  trace (env (snd (fix_resolv_conf s))) = trace (env s).
Proof.
  destruct (fix_resolv_conf_cases s) as [(target & _ & ->)|[_ ->]];
    [|repeat split].
  cbn [fst snd env set_env].
  split; [reflexivity|].
  rewrite mtab_fs_create, mtab_fs_remove.
  split; [reflexivity|].
  unfold fs_create, fs_remove.
  destruct (find_mount (mtab (env s)) (resolv_conf (om s))) as [[m rel]|].
  - destruct (visible _); cbn [mtab set_files];
      destruct (find_mount _ _) as [[m' rel']|]; split; reflexivity.
  - cbn [mtab set_files].
    destruct (find_mount _ _) as [[m' rel']|]; split; reflexivity.
Qed.

(** [fix_resolv_conf] always returns and is idempotent: a second run
    right after the first changes nothing.  It never touches the mount
    table, the calls seen by the union-mount primitive or the manager. *)
Theorem fix_resolv_conf_idempotent (s : State) :
  fst (fix_resolv_conf s) = Return tt /\
  fix_resolv_conf (snd (fix_resolv_conf s)) =
    (Return tt, snd (fix_resolv_conf s)) /\
  om (snd (fix_resolv_conf s)) = om s /\
  mtab (env (snd (fix_resolv_conf s))) = mtab (env s) /\
  trace (env (snd (fix_resolv_conf s))) = trace (env s).
Proof.
  destruct (fix_resolv_conf_world s) as (Hret & Hmtab & _ & Htrace).
  split; [exact Hret|].
  split; [|split; [apply keeps_manager_fix_resolv_conf | split; assumption]].
  destruct (fix_resolv_conf_cases s) as [(target & _ & ->)|[Hother ->]].
  - cbn [snd]. apply fix_resolv_conf_other.
    cbn [om env set_env]. intros t.
    rewrite lstat_fs_create by discriminate. discriminate.
  - cbn [snd]. apply fix_resolv_conf_other, Hother.
Qed.



(** The state right after a mount: what is seen at [etc/resolv.conf]
    under the mount directory is the merged view of the new stack. *)
Lemma find_mount_after_mount (fs0 : OverlayFS) (s0 : State) :
  find_mount (mtab (env (after_mount fs0 s0)))
    (resolv_conf (om (after_mount fs0 s0))) =
  Some (mount_of fs0 (overlay_mount_dir (_project_info (om s0))),
        ["etc"; "resolv.conf"]).
Proof.
  unfold after_mount, resolv_conf, joinpath. cbn.
  rewrite <- app_assoc, strip_prefix_app. reflexivity.
Qed.

Lemma lstat_after_mount (fs0 : OverlayFS) (s0 : State) :
  lstat (env (after_mount fs0 s0)) (resolv_conf (om (after_mount fs0 s0))) =
  visible (layer_lookup (files (env s0)) (upper_dir fs0 :: lower_dirs fs0)
             ["etc"; "resolv.conf"]).
Proof.
  unfold lstat. rewrite find_mount_after_mount. reflexivity.
Qed.






(** ** More on the scoped sessions *)

Lemma LayerMount_enter_shape ext (self a : LayerMount.t) sI s1 :
  LayerMount.__enter__ ext self sI = (Return a, s1) ->
  a = self /\
  exists fs0, s1 = snd (fix_resolv_conf (after_mount fs0 sI)).
Proof.
  unfold LayerMount.__enter__, bind. intros Hrun.
  destruct (mount_layer ext (LayerMount._top_part self)
              (LayerMount._pkg_cache self) sI) as [[[]|e] sm] eqn:Hmount;
    [|discriminate].
  destruct (mounted_from_shape ext sI sm) as [fs0 ->].
  { left. eexists _, _. exact Hmount. }
  destruct (fix_resolv_conf (after_mount fs0 sI)) as [[[]|e] s'] eqn:Hfix;
    [|discriminate].
  unfold ret in Hrun. injection Hrun as <- <-.
  split; [reflexivity|]. exists fs0. rewrite Hfix. reflexivity.
Qed.

Lemma PackageCacheMount_enter_shape ext (self a : PackageCacheMount.t) sI s1 :
  PackageCacheMount.__enter__ ext self sI = (Return a, s1) ->
  a = self /\
  exists fs0, s1 = snd (fix_resolv_conf (after_mount fs0 sI)).
Proof.
  unfold PackageCacheMount.__enter__, bind. intros Hrun.
  destruct (mount_pkg_cache ext sI) as [[[]|e] sm] eqn:Hmount; [|discriminate].
  destruct (mounted_from_shape ext sI sm) as [fs0 ->].
  { right. exact Hmount. }
  destruct (fix_resolv_conf (after_mount fs0 sI)) as [[[]|e] s'] eqn:Hfix;
    [|discriminate].
  unfold ret in Hrun. injection Hrun as <- <-.
  split; [reflexivity|]. exists fs0. rewrite Hfix. reflexivity.
Qed.

(** The state a session is entered in: a stack is recorded, mounted on
    the mount directory, and it is the latest entry of the mount table. *)
Lemma entered_state (fs0 : OverlayFS) (sI : State) :
  let s1 := snd (fix_resolv_conf (after_mount fs0 sI)) in
  let target := overlay_mount_dir (_project_info (om sI)) in
  _overlay_fs (om s1) = Some (set_mountpoint target fs0) /\
  mtab (env s1) = mount_of fs0 target :: mtab (env sI) /\
  same_config (om sI) (om s1).
Proof.
  cbn zeta.
  destruct (fix_resolv_conf_world (after_mount fs0 sI)) as (_ & Hmtab & _).
  rewrite keeps_manager_fix_resolv_conf, Hmtab.
  split; [reflexivity|]. split; [reflexivity|]. repeat split.
Qed.

(** Inside a session whose entry succeeded the manager has a stack
    recorded, mounted on the mount directory of the project, so the
    package operations of the session pass their check of the record and
    go on to their block in the isolated root. *)
Theorem session_operations_find_mount
    (ext : Collaborators) (sI s1 : State) :
  (forall (self a : LayerMount.t),
     LayerMount.__enter__ ext self sI = (Return a, s1) ->
     a = self /\
     forall package_names,
       LayerMount.install_packages ext a package_names s1 =
         discard_SystemExit
           (Chroot ext (overlay_mount_dir (_project_info (om sI)))
              (install_block ext package_names) s1)) /\
  (forall (self a : PackageCacheMount.t),
     PackageCacheMount.__enter__ ext self sI = (Return a, s1) ->
     a = self /\
     PackageCacheMount.refresh_packages_list ext a s1 =
       discard_SystemExit
         (Chroot ext (overlay_mount_dir (_project_info (om sI)))
            (lift_world (repo_refresh_packages_list ext)) s1) /\
     forall package_names,
       PackageCacheMount.download_packages ext a package_names s1 =
         discard_SystemExit
           (Chroot ext (overlay_mount_dir (_project_info (om sI)))
              (lift_world (repo_download_packages ext package_names)) s1)) /\
  ((exists (self a : LayerMount.t),
      LayerMount.__enter__ ext self sI = (Return a, s1)) \/
   (exists (self a : PackageCacheMount.t),
      PackageCacheMount.__enter__ ext self sI = (Return a, s1)) ->
   exists fs,
     _overlay_fs (om s1) = Some fs /\
     mountpoint fs = Some (overlay_mount_dir (_project_info (om sI))) /\
     head (mtab (env s1)) =
       Some (mount_of fs (overlay_mount_dir (_project_info (om sI))))).
Proof.
  split; [|split].
  - intros self a Hrun.
    destruct (LayerMount_enter_shape ext self a sI s1 Hrun) as [-> [fs0 ->]].
    split; [reflexivity|]. intros names.
    destruct (entered_state fs0 sI) as (Hfs & _ & Hinfo & _).
    unfold LayerMount.install_packages, install_packages, bind at 1, get_self.
    rewrite Hfs, Hinfo. apply suppress_SystemExit_run.
  - intros self a Hrun.
    destruct (PackageCacheMount_enter_shape ext self a sI s1 Hrun)
      as [-> [fs0 ->]].
    split; [reflexivity|].
    destruct (entered_state fs0 sI) as (Hfs & _ & Hinfo & _).
    split.
    + unfold PackageCacheMount.refresh_packages_list, refresh_packages_list,
        bind, get_self.
      rewrite Hfs, Hinfo. apply suppress_SystemExit_run.
    + intros names.
      unfold PackageCacheMount.download_packages, download_packages,
        bind, get_self.
      rewrite Hfs, Hinfo. apply suppress_SystemExit_run.
  - intros Hentered.
    assert (Hshape : exists fs0, s1 = snd (fix_resolv_conf (after_mount fs0 sI))).
    { destruct Hentered as [(self & a & Hrun)|(self & a & Hrun)].
      - apply (LayerMount_enter_shape ext self a sI s1 Hrun).
      - apply (PackageCacheMount_enter_shape ext self a sI s1 Hrun). }
    destruct Hshape as [fs0 ->].
    destruct (entered_state fs0 sI) as (Hfs & Hmtab & _).
    eexists. split; [exact Hfs|]. split; [reflexivity|].
    rewrite Hmtab. reflexivity.
Qed.

Lemma session_operations_find_mount_witness :
  let self := {| LayerMount._top_part := Sample.B;
                 LayerMount._pkg_cache := true;
                 LayerMount._pid := 4242 |} in
  let s1 := snd (LayerMount.__enter__ Sample.quiet self project) in
  fst (LayerMount.install_packages Sample.leaving self ["hello"] s1) = Return tt /\
  exists fs, _overlay_fs (om s1) = Some fs /\ mountpoint fs = Some Sample.MNT.
Proof.
  cbn zeta.
  set (self := {| LayerMount._top_part := Sample.B;
                  LayerMount._pkg_cache := true;
                  LayerMount._pid := 4242 |}).
  assert (Hrun : LayerMount.__enter__ Sample.leaving self project =
                   (Return self, snd (LayerMount.__enter__ Sample.quiet self project)))
    by (vm_compute; reflexivity).
  destruct (session_operations_find_mount Sample.leaving project
              (snd (LayerMount.__enter__ Sample.quiet self project)))
    as (Hlayer & _ & Hrec).
  destruct (Hlayer self self Hrun) as [_ Hinstall].
  split.
  - rewrite Hinstall. vm_compute. reflexivity.
  - destruct Hrec as (fs & Hfs & Hmp & _).
    + left. exists self, self. exact Hrun.
    + exists fs. split; [exact Hfs | exact Hmp].
Defined.

(** When the union-mount primitive refuses the mount on entry of a
    [LayerMount] scope, the error comes out of the [with] statement, the
    body and [__exit__] do not run: the primitive has received the mount
    call and no unmount call, nothing is mounted, and the manager is left
    with the stack recorded. *)
Theorem scope_mount_failure
    (ext : Collaborators) (top_part : Part) (pkg_cache : bool)
    (body : LayerMount.t -> M unit) (s0 sI : State) (self : LayerMount.t)
    (base : Path) (i : nat) (upper : Path) (e : Exn) :
  LayerMount.__init__ top_part pkg_cache s0 = (Return self, sI) ->
  _base_layer_dir (om sI) = Some base ->
  list_index top_part (_part_list (om sI)) = Some i ->
  _layer_dirs (om sI) !! i = Some upper ->
  let fs := layer_stack (om sI) base pkg_cache i upper in
  mount_fault ext fs (overlay_mount_dir (_project_info (om sI))) (env sI) = Some e ->
  let out := LayerMount.scope ext top_part pkg_cache body s0 in
  fst out = Raise e /\
  _overlay_fs (om (snd out)) = Some fs /\
  mtab (env (snd out)) = mtab (env sI) /\
  files (env (snd out)) = files (env sI) /\
  trace (env (snd out)) =
    EvMount (lower_dirs fs) upper (work_dir fs)
      (overlay_mount_dir (_project_info (om sI)))
    :: trace (env sI).
Proof.
  intros Hinit Hbase Hindex Hupper fs Hfault out.
  assert (Hself : LayerMount._top_part self = top_part /\
                  LayerMount._pkg_cache self = pkg_cache).
  { revert Hinit. unfold LayerMount.__init__, bind, os_getpid, ret.
    destruct (mkdirs s0) as [[[]|e'] s']; [|discriminate].
    intros H. injection H as <- <-. split; reflexivity. }
  destruct Hself as [Htop Hpkg].
  unfold out, LayerMount.scope, bind. rewrite Hinit.
  unfold with_stmt, LayerMount.__enter__, bind. rewrite Htop, Hpkg.
  rewrite (mount_layer_run ext sI base top_part pkg_cache i upper
             Hbase Hindex Hupper).
  cbn zeta. fold fs. rewrite Hfault.
  repeat split.
Qed.

Lemma scope_mount_failure_witness :
  let out := LayerMount.scope refusing Sample.B true
               (fun _ => raise (ValueError "never run")) project in
  fst out = Raise (ExternalError "mount: permission denied") /\
  is_Some (_overlay_fs (om (snd out))) /\
  mtab (env (snd out)) = [] /\
  length (trace (env (snd out))) = 1.
Proof.
  pose (self := {| LayerMount._top_part := Sample.B;
                   LayerMount._pkg_cache := true;
                   LayerMount._pid := 4242 |}).
  pose (sI := snd (LayerMount.__init__ Sample.B true project)).
  destruct (scope_mount_failure refusing Sample.B true
              (fun _ => raise (ValueError "never run")) project sI self
              Sample.BASE 1 Sample.LB (ExternalError "mount: permission denied"))
    as (Hout & Hfs & Hmtab & _ & Htrace).
  - vm_compute. reflexivity.
  - reflexivity.
  - reflexivity.
  - reflexivity.
  - reflexivity.
  - cbn zeta. split; [exact Hout|]. split; [eexists; exact Hfs|].
    split; [rewrite Hmtab; reflexivity | rewrite Htrace; reflexivity].
Defined.

(** A body that leaves the manager without a recorded stack (it has
    called [unmount()] itself, for one) makes the scope end with the
    [RuntimeError] of the second [unmount()], in the process that created
    the session and whatever the outcome of the body was. *)
Theorem scope_body_unmounts
    (ext : Collaborators) (s2 : State) (owner : nat) :
  _overlay_fs (om s2) = None ->
  pid (env s2) = owner ->
  (forall top_part pkg_cache body s0 self sI a s1 r,
     LayerMount._pid self = owner ->
     LayerMount.__init__ top_part pkg_cache s0 = (Return self, sI) ->
     LayerMount.__enter__ ext self sI = (Return a, s1) ->
     body a s1 = (r, s2) ->
     LayerMount.scope ext top_part pkg_cache body s0 =
       (Raise (RuntimeError "filesystem is not mounted"), s2)) /\
  (forall body s0 self sI a s1 r,
     PackageCacheMount._pid self = owner ->
     PackageCacheMount.__init__ s0 = (Return self, sI) ->
     PackageCacheMount.__enter__ ext self sI = (Return a, s1) ->
     body a s1 = (r, s2) ->
     PackageCacheMount.scope ext body s0 =
       (Raise (RuntimeError "filesystem is not mounted"), s2)).
Proof.
  intros Hnone Hpid. split.
  - intros top_part pkg_cache body s0 self sI a s1 r <- Hinit Henter Hbody.
    rewrite (LayerMount_scope_run _ _ _ _ _ _ _ _ _ _ _ Hinit Henter Hbody).
    rewrite (leave_match _ _ _ Hpid), (unmount_without_stack ext s2 Hnone).
    reflexivity.
  - intros body s0 self sI a s1 r <- Hinit Henter Hbody.
    rewrite (PackageCacheMount_scope_run _ _ _ _ _ _ _ _ _ Hinit Henter Hbody).
    rewrite (leave_match _ _ _ Hpid), (unmount_without_stack ext s2 Hnone).
    reflexivity.
Qed.

Lemma scope_body_unmounts_witness :
  fst (PackageCacheMount.scope Sample.quiet (fun _ => unmount Sample.quiet) project) =
    Raise (RuntimeError "filesystem is not mounted").
Proof.
  pose (self := {| PackageCacheMount._pid := 4242 |}).
  pose (sI := snd (PackageCacheMount.__init__ project)).
  pose (s1 := snd (PackageCacheMount.__enter__ Sample.quiet self sI)).
  pose (s2 := snd (unmount Sample.quiet s1)).
  destruct (scope_body_unmounts Sample.quiet s2 4242) as [_ Hscope].
  - vm_compute. reflexivity.
  - vm_compute. reflexivity.
  - rewrite (Hscope (fun _ => unmount Sample.quiet) project self sI self s1
               (Return tt) eq_refl);
      [reflexivity | vm_compute; reflexivity | vm_compute; reflexivity
      | vm_compute; reflexivity].
Defined.
